(** * vs-preview: frame/time value types, duration formatting and the
      benchmark toolbar, embedded from the Python sources

    - [src/vspreview/core/types.py]      : [Frame], [FrameInterval], [Time],
      [TimeInterval], [Output] (frame <-> time conversion)
    - [src/vspreview/utils/utils.py]     : [strfdelta]
    - [src/vspreview/toolbars/benchmark.py] : [BenchmarkToolbar]

    Conventions of the embedding.
    - Python [int] is [Z].  Python [float] is an IEEE 754 binary64 number: a
      finite float is the rational [Q] it denotes, and every operation on
      floats rounds its exact result to the nearest double, ties to the even
      significand ([double]); [round] is round-half-to-even.
    - A [datetime.timedelta] is its total number of microseconds (the
      normalised triple days/seconds/microseconds is recomputed from it);
      the constructors that the conversions go through raise OverflowError
      beyond 999999999 days, as CPython does.
    - A raising computation returns [Raise e]; stateful code threads the
      state explicitly and keeps the state reached when the exception is
      raised, as Python does. *)

From Stdlib Require Import ZArith QArith Qround Qabs Qpower Lqa List String Ascii Bool Lia.
From Stdlib Require Import DecimalString.
Import ListNotations.

Local Open Scope Z_scope.

(* ================================================================== *)
(** * Python runtime: exceptions and results                           *)
(* ================================================================== *)

Inductive exn : Type :=
| ValueError
| TypeError
| IndexError
| KeyError
| ZeroDivisionError
| OverflowError
| RecursionError.

Inductive result (A : Type) : Type :=
| Ok (a : A)
| Raise (e : exn).

Arguments Ok {A} a.
Arguments Raise {A} e.

Definition result_bind {A B} (r : result A) (k : A -> result B) : result B :=
  match r with
  | Ok a => k a
  | Raise e => Raise e
  end.

Definition result_map {A B} (f : A -> B) (r : result A) : result B :=
  result_bind r (fun a => Ok (f a)).

(* ================================================================== *)
(** * Python runtime: [float]                                          *)
(* ================================================================== *)

(** The nearest integer, ties to the even one: Python's [round(x)] on a
    finite float, and the rounding of a significand. *)
Definition py_round (x : Q) : Z :=
  let f := Qfloor x in
  match Qcompare (x - inject_Z f) (1 # 2) with
  | Lt => f
  | Gt => f + 1
  | Eq => if Z.even f then f else f + 1
  end.

Local Open Scope Q_scope.

Definition pow2 (e : Z) : Q := 2 ^ e.

(** The exponent [k] with [2^k <= |x| < 2^(k+1)], for [x <> 0]: the
    difference of the bit lengths of numerator and denominator, or one
    less. *)
Definition binade (x : Q) : Z :=
  let k := (Z.log2 (Z.abs (Qnum x)) - Z.log2 (Zpos (Qden x)))%Z in
  if Qle_bool (pow2 k) (Qabs x) then k else (k - 1)%Z.

(** [x] rounded to 53 significant bits, ties to even; below [2^-1022] the
    spacing stays [2^-1074] (subnormal numbers).  The exponent is not
    bounded above here, see [float_round]. *)
Definition double (x : Q) : Q :=
  let e := Z.max (binade x - 52) (-1074) in
  inject_Z (py_round (x / pow2 e)) * pow2 e.

(** The result of a float operation: a finite double or an infinity.  (No
    operation below yields a NaN from finite operands, and the sign of a
    zero is not observed.) *)
Inductive float : Type :=
| Finite (x : Q)
| Infinity (negative : bool).

(** Rounding of an exact result: overflow when the rounded value reaches
    [2^1024]. *)
Definition float_round (x : Q) : float :=
  let y := double x in
  if Qle_bool (pow2 1024) (Qabs y) then Infinity (negb (Qle_bool 0 y)) else Finite y.

(** Conversions of an [int] raise OverflowError instead of returning an
    infinity, and so does [round] on an infinity. *)
Definition finite (x : float) : result Q :=
  match x with
  | Finite y => Ok y
  | Infinity _ => Raise OverflowError
  end.

(** [float(n)] for an int [n]. *)
Definition float_of_int (n : Z) : result Q := finite (float_round (inject_Z n)).

(** [a / b] for two ints: the quotient is rounded once. *)
Definition int_truediv (a b : Z) : result Q :=
  if (b =? 0)%Z then Raise ZeroDivisionError
  else finite (float_round (inject_Z a / inject_Z b)).

(** [x / y] and [x * y] for two finite floats. *)
Definition float_truediv (x y : Q) : result float :=
  if Qeq_bool y 0 then Raise ZeroDivisionError else Ok (float_round (x / y)).
Definition float_mul (x y : Q) : float := float_round (x * y).

(** [n / y] for an int [n] and a float [y]: [n] is converted first. *)
Definition int_truediv_float (n : Z) (y : Q) : result float :=
  result_bind (float_of_int n) (fun x => float_truediv x y).

(** [round(x)] for a float [x]. *)
Definition round_float (x : float) : result Z :=
  match x with
  | Finite y => Ok (py_round y)
  | Infinity _ => Raise OverflowError
  end.

(** The integral part of [modf]: rounding towards zero. *)
Definition Qtrunc (x : Q) : Z := if Qle_bool 0 x then Qfloor x else Qceiling x.

Local Close Scope Q_scope.

(* ================================================================== *)
(** * core/types.py                                                    *)
(* ================================================================== *)

(** [datetime.timedelta], as total microseconds. *)
Record timedelta : Type := mk_timedelta { total_us : Z }.

Definition td_days (td : timedelta) : Z := total_us td / 86400000000.
Definition td_seconds (td : timedelta) : Z := (total_us td / 1000000) mod 86400.
Definition td_microseconds (td : timedelta) : Z := total_us td mod 1000000.

(** [td.total_seconds()]: the int of microseconds divided by [10**6]; for
    a timedelta, at most 86400 * 10^15 microseconds, the quotient is far
    from overflow. *)
Definition total_seconds (td : timedelta) : Q :=
  double (inject_Z (total_us td) / 1000000)%Q.

(** The microseconds of [timedelta(seconds=x)] for a finite float [x], as
    CPython's constructor computes them: the integral part of [x] counts
    [10**6] microseconds each, the fractional part is multiplied by [1e6]
    as a float, and the sum is rounded half to even. *)
Definition timedelta_seconds (x : Q) : timedelta :=
  let intpart := Qtrunc x in
  let fracpart := (x - inject_Z intpart)%Q in
  let dnum := double (1000000 * fracpart)%Q in
  mk_timedelta (py_round (inject_Z (intpart * 1000000) + dnum)%Q).

(** Every constructed timedelta is range-checked on its days. *)
Definition max_delta_days : Z := 999999999.

Definition timedelta_checked (td : timedelta) : result timedelta :=
  if (- max_delta_days <=? td_days td) && (td_days td <=? max_delta_days)
  then Ok td else Raise OverflowError.

(** [timedelta(seconds=x)] for the result [x] of a float operation; an
    infinity cannot be converted to an int. *)
Definition timedelta_of_float (x : float) : result timedelta :=
  match x with
  | Finite y => timedelta_checked (timedelta_seconds y)
  | Infinity _ => Raise OverflowError
  end.

(** [timedelta(milliseconds=n)] for an int [n]. *)
Definition timedelta_milliseconds (n : Z) : timedelta :=
  mk_timedelta (n * 1000).

Record Frame : Type := mk_Frame { Frame_value : Z }.
Record FrameInterval : Type := mk_FrameInterval { FrameInterval_value : Z }.
Record Time : Type := mk_Time { Time_value : timedelta }.
Record TimeInterval : Type := mk_TimeInterval { TimeInterval_value : timedelta }.

(** [class YAMLObjectWrapper]: every wrapper exposes [value]; the six
    comparisons are derived from [__eq__] and [__gt__] on it.  The value of
    the time classes is a [timedelta], compared by its microseconds. *)
Class YAMLObjectWrapper (T : Type) : Type := value : T -> Z.

#[export] Instance Frame_wrapper : YAMLObjectWrapper Frame := Frame_value.
#[export] Instance FrameInterval_wrapper : YAMLObjectWrapper FrameInterval :=
  FrameInterval_value.
#[export] Instance Time_wrapper : YAMLObjectWrapper Time :=
  fun t => total_us (Time_value t).
#[export] Instance TimeInterval_wrapper : YAMLObjectWrapper TimeInterval :=
  fun t => total_us (TimeInterval_value t).

Section Comparisons.
Context {T : Type} `{YAMLObjectWrapper T}.

Definition __int__ (self : T) : Z := value self.
Definition __eq__ (self other : T) : bool := value self =? value other.
Definition __gt__ (self other : T) : bool := value self >? value other.
Definition __ne__ (self other : T) : bool := negb (__eq__ self other).
Definition __le__ (self other : T) : bool := negb (__gt__ self other).
Definition __ge__ (self other : T) : bool :=
  __eq__ self other || __gt__ self other.
Definition __lt__ (self other : T) : bool := negb (__ge__ self other).
End Comparisons.

(** The [int] branch of [Frame.__init__]. *)
Definition Frame_of_int (init_value : Z) : result Frame :=
  if init_value <? 0 then Raise ValueError else Ok (mk_Frame init_value).

(** The [int] branch of [FrameInterval.__init__]: no sign check. *)
Definition FrameInterval_of_int (init_value : Z) : FrameInterval :=
  mk_FrameInterval init_value.

(** The right operand of [Frame.__sub__] / [Frame.__isub__], dispatched on
    with [isinstance]; the result of [Frame.__sub__] has the other class. *)
Inductive frame_operand : Type :=
| OFrame (f : Frame)
| OInterval (i : FrameInterval).

Definition operand_value (o : frame_operand) : Z :=
  match o with
  | OFrame f => value f
  | OInterval i => value i
  end.

Definition Frame___add__ (self : Frame) (other : FrameInterval) : result Frame :=
  Frame_of_int (value self + value other).

(** In-place: assigns [self.value] directly and returns [self]. *)
Definition Frame___iadd__ (self : Frame) (other : FrameInterval) : Frame :=
  mk_Frame (value self + value other).

(** The two [isinstance] branches of [Frame.__sub__]. *)
Definition Frame_sub_Frame (self other : Frame) : FrameInterval :=
  FrameInterval_of_int (value self - value other).
Definition Frame_sub_FrameInterval (self : Frame) (other : FrameInterval)
  : result Frame :=
  Frame_of_int (value self - value other).

Definition Frame___sub__ (self : Frame) (other : frame_operand)
  : result frame_operand :=
  match other with
  | OFrame o => Ok (OInterval (Frame_sub_Frame self o))
  | OInterval o =>
      result_bind (Frame_sub_FrameInterval self o) (fun f => Ok (OFrame f))
  end.

Definition Frame___isub__ (self : Frame) (other : frame_operand) : Frame :=
  mk_Frame (value self - operand_value other).

Definition FrameInterval___add__ (self other : FrameInterval) : FrameInterval :=
  FrameInterval_of_int (value self + value other).
Definition FrameInterval___iadd__ (self other : FrameInterval) : FrameInterval :=
  mk_FrameInterval (value self + value other).
Definition FrameInterval___sub__ (self other : FrameInterval) : FrameInterval :=
  FrameInterval_of_int (value self - value other).
Definition FrameInterval___isub__ (self other : FrameInterval) : FrameInterval :=
  mk_FrameInterval (value self - value other).
Definition FrameInterval___mul__ (self : FrameInterval) (other : Z) : FrameInterval :=
  FrameInterval_of_int (value self * other).

(** [Time.__float__] / [TimeInterval.__float__] *)
Definition Time___float__ (self : Time) : Q := total_seconds (Time_value self).
Definition TimeInterval___float__ (self : TimeInterval) : Q :=
  total_seconds (TimeInterval_value self).

(** [Time(seconds=x)], [TimeInterval(seconds=x)], [TimeInterval(milliseconds=n)];
    the first two without the range check, for seconds known to be in range. *)
Definition Time_of_seconds (x : Q) : Time := mk_Time (timedelta_seconds x).
Definition TimeInterval_of_seconds (x : Q) : TimeInterval :=
  mk_TimeInterval (timedelta_seconds x).
Definition TimeInterval_of_milliseconds (n : Z) : TimeInterval :=
  mk_TimeInterval (timedelta_milliseconds n).

(** [class Output]: only the frame rate takes part in the conversions.
    [fps_num / fps_den] comes from a [fractions.Fraction], whose denominator
    is positive; a variable-frame-rate clip has [fps_num = 0]. *)
Record Output : Type := mk_Output { fps_num : Z; fps_den : positive }.

(** [self.fps = self.fps_num / self.fps_den], a float.  (Numerator and
    denominator of a clip's rate are 64-bit integers, whose quotient is
    below the largest double.) *)
Definition Output_fps (self : Output) : Q := double (fps_num self # fps_den self).

(** [round(seconds * self.fps)] *)
Definition _calculate_frame (self : Output) (seconds : Q) : result Z :=
  round_float (float_mul seconds (Output_fps self)).

(** [frame_num / (self.fps or 1)]: a zero [fps] is falsy and replaced by
    the int 1, and the division is then one of two ints. *)
Definition _calculate_seconds (self : Output) (frame_num : Z) : result float :=
  if Qeq_bool (Output_fps self) 0
  then result_map Finite (int_truediv frame_num 1)
  else int_truediv_float frame_num (Output_fps self).

Definition to_frame (self : Output) (time : Time) : result Frame :=
  result_bind (_calculate_frame self (Time___float__ time)) Frame_of_int.

Definition to_time (self : Output) (frame : Frame) : result Time :=
  result_bind (_calculate_seconds self (__int__ frame)) (fun seconds =>
    result_map mk_Time (timedelta_of_float seconds)).

Definition to_frame_interval (self : Output) (time_interval : TimeInterval)
  : result FrameInterval :=
  result_map FrameInterval_of_int
    (_calculate_frame self (TimeInterval___float__ time_interval)).

Definition to_time_interval (self : Output) (frame_interval : FrameInterval)
  : result TimeInterval :=
  result_bind (_calculate_seconds self (__int__ frame_interval)) (fun seconds =>
    result_map mk_TimeInterval (timedelta_of_float seconds)).

(** [Frame.__init__] with its three accepted argument classes; the [Time]
    branch goes through the current output ([main_window().current_output]),
    passed here explicitly. *)
Inductive Frame_init_value : Type :=
| InitInt (n : Z)
| InitFrame (f : Frame)
| InitTime (t : Time).

Definition Frame___init__ (current_output : Output) (init_value : Frame_init_value)
  : result Frame :=
  match init_value with
  | InitInt n => Frame_of_int n
  | InitFrame f => Ok (mk_Frame (value f))
  | InitTime t =>
      result_bind (to_frame current_output t) (fun f => Ok (mk_Frame (value f)))
  end.

(* ================================================================== *)
(** * utils/utils.py: [strfdelta]                                      *)
(* ================================================================== *)

Local Open Scope string_scope.

Fixpoint string_repeat (c : ascii) (n : nat) : string :=
  match n with
  | O => EmptyString
  | S n' => String c (string_repeat c n')
  end.

(** Left padding of [s] with [c] up to [width] characters. *)
Definition pad_left (c : ascii) (width : nat) (s : string) : string :=
  string_repeat c (width - String.length s) ++ s.

(** ['{:d}'.format(n)] *)
Definition format_d (n : Z) : string := NilZero.string_of_int (Z.to_int n).

(** ['{:0Wd}'.format(n)]: zero padding goes between the sign and the digits. *)
Definition format_0d (width : nat) (n : Z) : string :=
  if (n <? 0)%Z
  then String "-" (pad_left "0" (width - 1) (format_d (- n)%Z))
  else pad_left "0" width (format_d n).

(** ['{:Wd}'.format(n)]: numbers are right-aligned, padded with spaces. *)
Definition format_wd (width : nat) (n : Z) : string :=
  pad_left " " width (format_d n).

(** [string.Template] with [delimiter = '%'] ([class DeltaTemplate]).  The
    pattern is [%%] (escape), [%name], [%{name}] with [name] matching
    [[_a-z][_a-z0-9]*] case-insensitively, and anything else after the
    delimiter is invalid. *)
Definition is_ident_start (c : ascii) : bool :=
  let n := nat_of_ascii c in
  ((65 <=? n) && (n <=? 90) || (97 <=? n) && (n <=? 122) || (n =? 95))%nat.

Definition is_ident_char (c : ascii) : bool :=
  let n := nat_of_ascii c in
  (is_ident_start c || (48 <=? n) && (n <=? 57))%nat.

Inductive scan_state : Type :=
| Text                      (* outside any placeholder *)
| AfterDelim                (* just read the delimiter *)
| Named (name : string)     (* inside [%name] *)
| BraceOpen                 (* just read [%{] *)
| Braced (name : string).   (* inside [%{name] *)

(** The keyword mapping [d] handed to [substitute], in insertion order. *)
Definition mapping : Type := list (string * string).

Fixpoint mapping_get (d : mapping) (key : string) : result string :=
  match d with
  | [] => Raise KeyError
  | (k, v) :: d' => if String.eqb k key then Ok v else mapping_get d' key
  end.

Definition string_snoc (s : string) (c : ascii) : string := s ++ String c EmptyString.

(** [Template.substitute]: the matches are converted from left to right and
    the first failing one raises (KeyError for an unknown name, ValueError
    for an ill-formed placeholder). *)
Fixpoint substitute_from (d : mapping) (st : scan_state) (s : string)
  : result string :=
  match s with
  | EmptyString =>
      match st with
      | Text => Ok EmptyString
      | Named name => mapping_get d name
      | AfterDelim | BraceOpen | Braced _ => Raise ValueError
      end
  | String c rest =>
      match st with
      | Text =>
          if Ascii.eqb c "%" then substitute_from d AfterDelim rest
          else result_map (String c) (substitute_from d Text rest)
      | AfterDelim =>
          if Ascii.eqb c "%" then result_map (String "%") (substitute_from d Text rest)
          else if Ascii.eqb c "{" then substitute_from d BraceOpen rest
          else if is_ident_start c
               then substitute_from d (Named (String c EmptyString)) rest
               else Raise ValueError
      | Named name =>
          if is_ident_char c then substitute_from d (Named (string_snoc name c)) rest
          else
            result_bind (mapping_get d name) (fun v =>
              result_map (append v)
                (if Ascii.eqb c "%" then substitute_from d AfterDelim rest
                 else result_map (String c) (substitute_from d Text rest)))
      | BraceOpen =>
          if is_ident_start c
          then substitute_from d (Braced (String c EmptyString)) rest
          else Raise ValueError
      | Braced name =>
          if is_ident_char c then substitute_from d (Braced (string_snoc name c)) rest
          else if Ascii.eqb c "}"
               then result_bind (mapping_get d name) (fun v =>
                      result_map (append v) (substitute_from d Text rest))
               else Raise ValueError
      end
  end.

Definition substitute (template : string) (d : mapping) : result string :=
  substitute_from d Text template.

(** [strfdelta(time, output_format)], on [td = time.value]. *)
Definition strfdelta_hours (td : timedelta) : Z := td_seconds td / 3600.
Definition strfdelta_minutes (td : timedelta) : Z := td_seconds td / 60.
Definition strfdelta_seconds (td : timedelta) : Z := td_seconds td mod 60.
Definition strfdelta_milliseconds (td : timedelta) : Z := td_microseconds td / 1000.

Definition strfdelta_mapping (td : timedelta) : mapping :=
  [ ("D", format_d (td_days td));
    ("H", format_0d 2 (strfdelta_hours td));
    ("M", format_0d 2 (strfdelta_minutes td));
    ("S", format_0d 2 (strfdelta_seconds td));
    ("Z", format_0d 3 (strfdelta_milliseconds td));
    ("h", format_d (strfdelta_hours td));
    ("m", format_wd 2 (strfdelta_minutes td));
    ("s", format_wd 2 (strfdelta_seconds td)) ].

Definition strfdelta (td : timedelta) (output_format : string) : result string :=
  substitute output_format (strfdelta_mapping td).

(** [Time.__str__] and [TimeInterval.__str__] *)
Definition Time___str__ (self : Time) : result string :=
  strfdelta (Time_value self) "%h:%M:%S.%Z".
Definition TimeInterval___str__ (self : TimeInterval) : result string :=
  strfdelta (TimeInterval_value self) "%h:%M:%S.%Z".

Local Close Scope string_scope.

(* ================================================================== *)
(** * toolbars/benchmark.py: [BenchmarkToolbar]                        *)
(* ================================================================== *)

(** ** The frame source

    [clip.get_frame_async(n)] returns a future; the future is identified by
    its rank among all requests made so far.  The source is observed through
    its history, newest event first: the requests issued and the futures it
    has resolved.  A request is in flight from its [Requested] event until
    its [Resolved] event.  Futures resolve successfully, and never before
    the handler that requested them has returned. *)

Inductive source_event : Type :=
| Requested (index : Z) (callback : bool)
    (* get_frame_async(index); [callback]: a done-callback
       [_request_next_frame_unsequenced] was attached to the future *)
| Resolved (future : nat).

Definition history : Type := list source_event.

(** All requests, oldest first: position = future id. *)
Fixpoint requests (h : history) : list (Z * bool) :=
  match h with
  | [] => []
  | Requested index callback :: h' => requests h' ++ [(index, callback)]
  | Resolved _ :: h' => requests h'
  end.

Definition issued (h : history) : list Z := map fst (requests h).

(** Futures issued and not yet resolved. *)
Fixpoint pending (h : history) : list nat :=
  match h with
  | [] => []
  | Requested _ _ :: h' => List.length (requests h') :: pending h'
  | Resolved f :: h' => remove Nat.eq_dec f (pending h')
  end.

Definition in_flight (h : history) : nat := List.length (pending h).

Definition is_pending (h : history) (f : nat) : bool :=
  existsb (Nat.eqb f) (pending h).

Definition has_callback (h : history) (f : nat) : bool :=
  match nth_error (requests h) f with
  | Some (_, callback) => callback
  | None => false
  end.

(** ** [collections.deque] of futures, leftmost item first *)

Record deque : Type := mk_deque { items : list nat; maxlen : option nat }.

(** [deque()] *)
Definition deque_unbounded : deque := mk_deque [] None.

(** [deque([], maxlen)] *)
Definition deque_new (n : Z) : result deque :=
  if n <? 0 then Raise ValueError else Ok (mk_deque [] (Some (Z.to_nat n))).

(** [d.appendleft(x)]: a full bounded deque drops items from the right. *)
Definition appendleft (x : nat) (d : deque) : deque :=
  mk_deque
    (match maxlen d with
     | Some m => firstn m (x :: items d)
     | None => x :: items d
     end)
    (maxlen d).

(** [d.pop()]: removes and returns the rightmost item. *)
Definition pop (d : deque) : result (nat * deque) :=
  match rev (items d) with
  | [] => Raise IndexError
  | x :: r => Ok (x, mk_deque (rev r) (maxlen d))
  end.

(** ** The toolbar state *)

(** What [update_info] writes into [info_label]: the text up to the
    throughput, and the throughput itself (printed with four decimals). *)
Record info : Type := mk_info { info_text : string; info_fps : Q }.

Record BenchmarkToolbar : Type := mk_BenchmarkToolbar {
  running : bool;
  unsequenced : bool;
  buffer : deque;
  run_start_time : Q;
  start_frame : Frame;
  end_frame : Frame;
  total_frames : FrameInterval;
  frames_left : FrameInterval;
  sequenced_timer : bool;      (* sequenced_timer.isActive() *)
  update_info_timer : bool;    (* update_info_timer.isActive() *)
  run_abort_button : bool;     (* run_abort_button.isChecked() *)
  ui_editable : bool;          (* the eight controls of set_ui_editable *)
  info_label : option info
}.

(** The values of the input widgets, read by [run]. *)
Record Controls : Type := mk_Controls {
  start_frame_control : Frame;
  end_frame_control : Frame;
  total_frames_control : FrameInterval;
  prefetch_checkbox : bool;
  unsequenced_checkbox : bool
}.

Definition set_running (v : bool) (t : BenchmarkToolbar) : BenchmarkToolbar :=
  mk_BenchmarkToolbar v (unsequenced t) (buffer t) (run_start_time t)
    (start_frame t) (end_frame t) (total_frames t) (frames_left t)
    (sequenced_timer t) (update_info_timer t) (run_abort_button t)
    (ui_editable t) (info_label t).
Definition set_unsequenced (v : bool) (t : BenchmarkToolbar) : BenchmarkToolbar :=
  mk_BenchmarkToolbar (running t) v (buffer t) (run_start_time t)
    (start_frame t) (end_frame t) (total_frames t) (frames_left t)
    (sequenced_timer t) (update_info_timer t) (run_abort_button t)
    (ui_editable t) (info_label t).
Definition set_buffer (v : deque) (t : BenchmarkToolbar) : BenchmarkToolbar :=
  mk_BenchmarkToolbar (running t) (unsequenced t) v (run_start_time t)
    (start_frame t) (end_frame t) (total_frames t) (frames_left t)
    (sequenced_timer t) (update_info_timer t) (run_abort_button t)
    (ui_editable t) (info_label t).
Definition set_run_start_time (v : Q) (t : BenchmarkToolbar) : BenchmarkToolbar :=
  mk_BenchmarkToolbar (running t) (unsequenced t) (buffer t) v
    (start_frame t) (end_frame t) (total_frames t) (frames_left t)
    (sequenced_timer t) (update_info_timer t) (run_abort_button t)
    (ui_editable t) (info_label t).
Definition set_start_frame (v : Frame) (t : BenchmarkToolbar) : BenchmarkToolbar :=
  mk_BenchmarkToolbar (running t) (unsequenced t) (buffer t) (run_start_time t)
    v (end_frame t) (total_frames t) (frames_left t)
    (sequenced_timer t) (update_info_timer t) (run_abort_button t)
    (ui_editable t) (info_label t).
Definition set_end_frame (v : Frame) (t : BenchmarkToolbar) : BenchmarkToolbar :=
  mk_BenchmarkToolbar (running t) (unsequenced t) (buffer t) (run_start_time t)
    (start_frame t) v (total_frames t) (frames_left t)
    (sequenced_timer t) (update_info_timer t) (run_abort_button t)
    (ui_editable t) (info_label t).
Definition set_total_frames (v : FrameInterval) (t : BenchmarkToolbar)
  : BenchmarkToolbar :=
  mk_BenchmarkToolbar (running t) (unsequenced t) (buffer t) (run_start_time t)
    (start_frame t) (end_frame t) v (frames_left t)
    (sequenced_timer t) (update_info_timer t) (run_abort_button t)
    (ui_editable t) (info_label t).
Definition set_frames_left (v : FrameInterval) (t : BenchmarkToolbar)
  : BenchmarkToolbar :=
  mk_BenchmarkToolbar (running t) (unsequenced t) (buffer t) (run_start_time t)
    (start_frame t) (end_frame t) (total_frames t) v
    (sequenced_timer t) (update_info_timer t) (run_abort_button t)
    (ui_editable t) (info_label t).
Definition set_sequenced_timer (v : bool) (t : BenchmarkToolbar) : BenchmarkToolbar :=
  mk_BenchmarkToolbar (running t) (unsequenced t) (buffer t) (run_start_time t)
    (start_frame t) (end_frame t) (total_frames t) (frames_left t)
    v (update_info_timer t) (run_abort_button t)
    (ui_editable t) (info_label t).
Definition set_update_info_timer (v : bool) (t : BenchmarkToolbar) : BenchmarkToolbar :=
  mk_BenchmarkToolbar (running t) (unsequenced t) (buffer t) (run_start_time t)
    (start_frame t) (end_frame t) (total_frames t) (frames_left t)
    (sequenced_timer t) v (run_abort_button t)
    (ui_editable t) (info_label t).
Definition set_run_abort_button (v : bool) (t : BenchmarkToolbar) : BenchmarkToolbar :=
  mk_BenchmarkToolbar (running t) (unsequenced t) (buffer t) (run_start_time t)
    (start_frame t) (end_frame t) (total_frames t) (frames_left t)
    (sequenced_timer t) (update_info_timer t) v
    (ui_editable t) (info_label t).
Definition set_ui_editable_flag (v : bool) (t : BenchmarkToolbar) : BenchmarkToolbar :=
  mk_BenchmarkToolbar (running t) (unsequenced t) (buffer t) (run_start_time t)
    (start_frame t) (end_frame t) (total_frames t) (frames_left t)
    (sequenced_timer t) (update_info_timer t) (run_abort_button t)
    v (info_label t).
Definition set_info_label (v : option info) (t : BenchmarkToolbar) : BenchmarkToolbar :=
  mk_BenchmarkToolbar (running t) (unsequenced t) (buffer t) (run_start_time t)
    (start_frame t) (end_frame t) (total_frames t) (frames_left t)
    (sequenced_timer t) (update_info_timer t) (run_abort_button t)
    (ui_editable t) v.

(** [BenchmarkToolbar.__init__] *)
Definition toolbar_init : BenchmarkToolbar :=
  {| running := false;
     unsequenced := false;
     buffer := deque_unbounded;
     run_start_time := 0%Q;
     start_frame := mk_Frame 0;
     end_frame := mk_Frame 0;
     total_frames := mk_FrameInterval 0;
     frames_left := mk_FrameInterval 0;
     sequenced_timer := false;
     update_info_timer := false;
     run_abort_button := false;
     ui_editable := true;
     info_label := None |}.

(** ** Toolbar and frame source together; the monad of the handlers *)

Record World : Type := mk_World { toolbar : BenchmarkToolbar; source : history }.

Definition world_init : World := mk_World toolbar_init [].

(** A handler transforms the world and returns or raises; the world reached
    at a [Raise] is kept. *)
Definition M (A : Type) : Type := World -> result A * World.

Definition ret {A} (a : A) : M A := fun w => (Ok a, w).
Definition raise {A} (e : exn) : M A := fun w => (Raise e, w).
Definition bind {A B} (m : M A) (k : A -> M B) : M B :=
  fun w =>
    match m w with
    | (Ok a, w') => k a w'
    | (Raise e, w') => (Raise e, w')
    end.
Definition lift {A} (r : result A) : M A := fun w => (r, w).
Definition read {A} (field : BenchmarkToolbar -> A) : M A :=
  fun w => (Ok (field (toolbar w)), w).
Definition write (update : BenchmarkToolbar -> BenchmarkToolbar) : M unit :=
  fun w => (Ok tt, mk_World (update (toolbar w)) (source w)).
Definition when (b : bool) (m : M unit) : M unit := if b then m else ret tt.

Declare Scope handler_scope.
Delimit Scope handler_scope with handler.
Notation "x <- m ;; k" := (bind m (fun x => k))
  (at level 61, m at next level, right associativity) : handler_scope.
Notation "m ;; k" := (bind m (fun _ => k))
  (at level 61, right associativity) : handler_scope.

(** [for x in xs: body(x)] *)
Fixpoint for_each {A} (xs : list A) (body : A -> M unit) : M unit :=
  match xs with
  | [] => ret tt
  | x :: xs' => bind (body x) (fun _ => for_each xs' body)
  end.

(** [range(n)] *)
Definition range (n : Z) : list Z := map Z.of_nat (seq 0 (Z.to_nat n)).

(** [clip.get_frame_async(index)], with or without [add_done_callback]. *)
Definition get_frame_async (index : Z) (callback : bool) : M nat :=
  fun w =>
    (Ok (List.length (requests (source w))),
     mk_World (toolbar w) (Requested index callback :: source w)).

(** [future.result()]: returns once the future is resolved, so it is
    resolved afterwards. *)
Definition future_result (f : nat) : M unit :=
  fun w =>
    if is_pending (source w) f
    then (Ok tt, mk_World (toolbar w) (Resolved f :: source w))
    else (Ok tt, w).

Local Open Scope handler_scope.

(** The body of [update_info] up to [setText]; [now] is the reading of
    [perf_counter()].  The division [int(frames_done) / float(run_time)]
    comes before the formatting of the label. *)
Definition info_str (now : Q) (t : BenchmarkToolbar) : result info :=
  let run_time := TimeInterval_of_seconds (now - run_start_time t)%Q in
  let frames_done := FrameInterval___sub__ (total_frames t) (frames_left t) in
  if Qeq_bool (TimeInterval___float__ run_time) 0
  then Raise ZeroDivisionError
  else
    let fps := (inject_Z (__int__ frames_done) / TimeInterval___float__ run_time)%Q in
    result_bind (strfdelta (TimeInterval_value run_time) "%M:%S.%Z") (fun elapsed =>
      Ok (mk_info (format_d (value frames_done) ++ "/" ++
                   format_d (value (total_frames t)) ++ " frames in " ++
                   elapsed ++ ", ")%string
                  fps)).

(** [update_info] *)
Definition update_info (now : Q) : M unit :=
  t <- read (fun t => t) ;;
  i <- lift (info_str now t) ;;
  write (set_info_label (Some i)).

(** [set_ui_editable(new_state)] *)
Definition set_ui_editable (new_state : bool) : M unit :=
  write (set_ui_editable_flag new_state).

(** Python's default recursion limit. *)
Definition recursion_limit : nat := 1000.

(** [abort].  [run_abort_button.click()] on the checked button unchecks it
    and emits [clicked(False)], whose slot [on_run_abort_pressed(False)]
    calls [set_ui_editable(True)] and [abort()] again; [depth] bounds that
    recursion.  The queued [stop] of [update_info_timer] takes effect at
    once. *)
Fixpoint abort_depth (depth : nat) (now : Q) : M unit :=
  match depth with
  | O => raise RecursionError
  | S depth' =>
      r <- read running ;;
      when r (update_info now) ;;
      write (set_running false) ;;
      write (set_update_info_timer false) ;;
      checked <- read run_abort_button ;;
      when checked
        (write (set_run_abort_button false) ;;
         set_ui_editable true ;;
         abort_depth depth' now)
  end.

Definition abort (now : Q) : M unit := abort_depth recursion_limit now.

Definition next_frame_of (w : BenchmarkToolbar) : result Frame :=
  result_bind (Frame___add__ (end_frame w) (FrameInterval_of_int 1))
    (fun f => Frame_sub_FrameInterval f (frames_left w)).

Definition decrement_frames_left : M unit :=
  left <- read frames_left ;;
  write (set_frames_left (FrameInterval___isub__ left (FrameInterval_of_int 1))).

(** [_request_next_frame_sequenced], the slot of [sequenced_timer]. *)
Definition _request_next_frame_sequenced (now : Q) : M unit :=
  left <- read frames_left ;;
  if __le__ left (FrameInterval_of_int 0)
  then abort now
  else
    buf <- read buffer ;;
    popped <- lift (pop buf) ;;
    write (set_buffer (snd popped)) ;;
    future_result (fst popped) ;;
    t <- read (fun t => t) ;;
    next_frame <- lift (next_frame_of t) ;;
    when (__le__ next_frame (end_frame t))
      (new_future <- get_frame_async (__int__ next_frame) false ;;
       buf' <- read buffer ;;
       write (set_buffer (appendleft new_future buf'))) ;;
    decrement_frames_left.

(** [_request_next_frame_unsequenced(future)], called by [run] without a
    future and as the done-callback of every future it requests. *)
Definition _request_next_frame_unsequenced (future : option nat) (now : Q) : M unit :=
  left <- read frames_left ;;
  if __le__ left (FrameInterval_of_int 0)
  then abort now
  else
    r <- read running ;;
    when r
      (t <- read (fun t => t) ;;
       next_frame <- lift (next_frame_of t) ;;
       _ <- get_frame_async (__int__ next_frame) true ;;
       ret tt) ;;
    match future with
    | Some f => future_result f
    | None => ret tt
    end ;;
    decrement_frames_left.

(** [get_usable_cpus_count()] is passed as [cpus]. *)
Definition concurrent_requests_count (ctl : Controls) (cpus : Z) : Z :=
  if prefetch_checkbox ctl then cpus else 1.

(** The body of the [for offset in range(...)] loop of [run]. *)
Definition run_request (now : Q) (offset : Z) : M unit :=
  u <- read unsequenced ;;
  if u
  then _request_next_frame_unsequenced None now
  else
    start <- read start_frame ;;
    frame <- lift (Frame___add__ start (FrameInterval_of_int offset)) ;;
    future <- get_frame_async (__int__ frame) false ;;
    buf <- read buffer ;;
    write (set_buffer (appendleft future buf)).

(** [run].  The cache clearing and the pixmap copy made first touch neither
    the toolbar nor the asynchronous requests; the refresh interval set on
    [update_info_timer] is not kept.  [deepcopy] gives [frames_left] a value
    of its own. *)
Definition run (ctl : Controls) (cpus : Z) (now : Q) : M unit :=
  write (set_start_frame (start_frame_control ctl)) ;;
  write (set_end_frame (end_frame_control ctl)) ;;
  write (set_total_frames (total_frames_control ctl)) ;;
  write (set_frames_left (mk_FrameInterval (value (total_frames_control ctl)))) ;;
  let concurrent := concurrent_requests_count ctl cpus in
  write (set_unsequenced (unsequenced_checkbox ctl)) ;;
  when (negb (unsequenced_checkbox ctl))
    (buf <- lift (deque_new concurrent) ;;
     write (set_buffer buf) ;;
     write (set_sequenced_timer true)) ;;
  write (set_running true) ;;
  write (set_run_start_time now) ;;
  left <- read frames_left ;;
  for_each (range (Z.min (__int__ left) concurrent)) (run_request now) ;;
  write (set_update_info_timer true).

(** [on_run_abort_pressed(checked)], the slot of [run_abort_button.clicked]. *)
Definition on_run_abort_pressed (checked : bool) (ctl : Controls) (cpus : Z) (now : Q)
  : M unit :=
  if checked
  then set_ui_editable false ;; run ctl cpus now
  else set_ui_editable true ;; abort now.

(** ** The events delivered to the toolbar

    Slots and done-callbacks are taken one at a time, each running to its
    end before the next is delivered: the interleavings of worker threads
    inside a handler are not modelled. *)

Inductive input : Type :=
| Press (ctl : Controls) (cpus : nat) (now : Q)
    (* the user clicks run_abort_button; [ctl] and [cpus] are the widget
       values and the CPU count at that moment *)
| Tick (now : Q)                 (* sequenced_timer.timeout *)
| Done (future : nat) (now : Q)  (* the source resolves a future *)
| Poll (now : Q).                (* update_info_timer.timeout *)

Definition enabled (i : input) (w : World) : bool :=
  match i with
  | Press _ _ _ => true
  | Tick _ => sequenced_timer (toolbar w)
  | Done f _ => is_pending (source w) f
  | Poll _ => update_info_timer (toolbar w)
  end.

Definition handle (i : input) : M unit :=
  match i with
  | Press ctl cpus now =>
      checked <- read run_abort_button ;;
      write (set_run_abort_button (negb checked)) ;;
      on_run_abort_pressed (negb checked) ctl (Z.of_nat cpus) now
  | Tick now => _request_next_frame_sequenced now
  | Done f now =>
      fun w =>
        let cb := has_callback (source w) f in
        let w' := mk_World (toolbar w) (Resolved f :: source w) in
        if cb then _request_next_frame_unsequenced (Some f) now w' else (Ok tt, w')
  | Poll now => update_info now
  end.

(** An exception escaping a slot or a done-callback is reported and the
    event loop goes on from the state reached. *)
Definition deliver (i : input) (w : World) : World :=
  if enabled i w then snd (handle i w) else w.

Definition deliver_all (inputs : list input) (w : World) : World :=
  fold_left (fun w i => deliver i w) inputs w.

Inductive reachable : World -> Prop :=
| reachable_init : reachable world_init
| reachable_step (i : input) (w : World) :
    reachable w -> enabled i w = true -> reachable (snd (handle i w)).

Local Close Scope handler_scope.

(* ================================================================== *)
(** * core/types.py, continued: intervals, times, scenes              *)
(* ================================================================== *)

(** Arithmetic of [timedelta]: sums, differences and integer multiples are
    computed on the microseconds, and the quotient by a float [x] is the
    exact quotient by the value of [x], rounded to the microsecond, ties to
    even; every result is range-checked. *)
Definition td_add (a b : timedelta) : result timedelta :=
  timedelta_checked (mk_timedelta (total_us a + total_us b)).
Definition td_sub (a b : timedelta) : result timedelta :=
  timedelta_checked (mk_timedelta (total_us a - total_us b)).
Definition td_mul (a : timedelta) (n : Z) : result timedelta :=
  timedelta_checked (mk_timedelta (total_us a * n)).
Definition td_truediv (a : timedelta) (x : Q) : result timedelta :=
  if Qeq_bool x 0 then Raise ZeroDivisionError
  else timedelta_checked (mk_timedelta (py_round (inject_Z (total_us a) / x))).

(** [Time.__init__(init_value=None, **kwargs)]; [kwargs] is the timedelta
    built from the keyword arguments, if any were given. *)
Inductive Time_init_value : Type :=
| TimeFromTimedelta (td : timedelta)
| TimeFromTime (t : Time)
| TimeFromFrame (f : Frame)
| TimeFromNone
| TimeFromOther.          (* any other object, e.g. an int *)

Definition Time___init__ (current_output : Output) (init_value : Time_init_value)
           (kwargs : option timedelta) : result Time :=
  match init_value with
  | TimeFromTimedelta td => Ok (mk_Time td)
  | TimeFromTime t => Ok (mk_Time (Time_value t))
  | TimeFromFrame f =>
      result_bind (to_time current_output f) (fun t => Ok (mk_Time (Time_value t)))
  | TimeFromNone =>
      match kwargs with
      | Some td => Ok (mk_Time td)
      | None => Ok (mk_Time (mk_timedelta 0))
      end
  | TimeFromOther =>
      match kwargs with
      | Some td => Ok (mk_Time td)
      | None => Raise TypeError
      end
  end.

(** The right operand of [Time.__sub__] / [Time.__isub__]. *)
Inductive time_operand : Type :=
| OTime (t : Time)
| OTimeInterval (i : TimeInterval).

Definition time_operand_value (o : time_operand) : timedelta :=
  match o with
  | OTime t => Time_value t
  | OTimeInterval i => TimeInterval_value i
  end.

Definition Time___add__ (self : Time) (other : TimeInterval) : result Time :=
  result_map mk_Time (td_add (Time_value self) (TimeInterval_value other)).
Definition Time___iadd__ (self : Time) (other : TimeInterval) : result Time :=
  result_map mk_Time (td_add (Time_value self) (TimeInterval_value other)).
Definition Time___sub__ (self : Time) (other : time_operand) : result time_operand :=
  match other with
  | OTime o =>
      result_map (fun td => OTimeInterval (mk_TimeInterval td))
        (td_sub (Time_value self) (Time_value o))
  | OTimeInterval o =>
      result_map (fun td => OTime (mk_Time td))
        (td_sub (Time_value self) (TimeInterval_value o))
  end.
Definition Time___isub__ (self : Time) (other : time_operand) : result Time :=
  result_map mk_Time (td_sub (Time_value self) (time_operand_value other)).

Definition TimeInterval___add__ (self other : TimeInterval) : result TimeInterval :=
  result_map mk_TimeInterval (td_add (TimeInterval_value self) (TimeInterval_value other)).
Definition TimeInterval___sub__ (self other : TimeInterval) : result TimeInterval :=
  result_map mk_TimeInterval (td_sub (TimeInterval_value self) (TimeInterval_value other)).
Definition TimeInterval___mul__ (self : TimeInterval) (other : Z) : result TimeInterval :=
  result_map mk_TimeInterval (td_mul (TimeInterval_value self) other).
Definition TimeInterval___rmul__ (self : TimeInterval) (other : Z) : result TimeInterval :=
  result_map mk_TimeInterval (td_mul (TimeInterval_value self) other).
Definition TimeInterval___truediv__ (self : TimeInterval) (other : Q)
  : result TimeInterval :=
  result_map mk_TimeInterval (td_truediv (TimeInterval_value self) other).

(** [class Scene] *)
Record Scene : Type := mk_Scene {
  Scene_start : Frame;
  Scene_end : Frame;
  Scene_label : string
}.

(** [Scene.__init__(start=None, end=None, label='')] *)
Definition Scene___init__ (start end_ : option Frame) (label : string) : result Scene :=
  let ordered (s e : Frame) : Scene :=
    if __gt__ s e then mk_Scene e s label else mk_Scene s e label in
  match start, end_ with
  | Some s, Some e => Ok (ordered s e)
  | Some s, None => Ok (ordered s s)
  | None, Some e => Ok (ordered e e)
  | None, None => Raise ValueError
  end.

(** [Scene.__eq__] and [Scene.__gt__] override the wrapper's; the other four
    comparisons are inherited and go through these two. *)
Definition Scene___eq__ (self other : Scene) : bool :=
  __eq__ (Scene_start self) (Scene_start other)
  && __eq__ (Scene_end self) (Scene_end other).
Definition Scene___gt__ (self other : Scene) : bool :=
  if __ne__ (Scene_start self) (Scene_start other)
  then __gt__ (Scene_start self) (Scene_start other)
  else __gt__ (Scene_end self) (Scene_end other).
Definition Scene___ne__ (self other : Scene) : bool := negb (Scene___eq__ self other).
Definition Scene___le__ (self other : Scene) : bool := negb (Scene___gt__ self other).
Definition Scene___ge__ (self other : Scene) : bool :=
  Scene___eq__ self other || Scene___gt__ self other.
Definition Scene___lt__ (self other : Scene) : bool := negb (Scene___ge__ self other).

(** [Scene.duration] *)
Definition Scene_duration (self : Scene) : FrameInterval :=
  Frame_sub_Frame (Scene_end self) (Scene_start self).

(** [Scene.__contains__]: [self.start <= frame <= self.end] *)
Definition Scene___contains__ (self : Scene) (frame : Frame) : bool :=
  __le__ (Scene_start self) frame && __le__ frame (Scene_end self).

(** [Scene.__str__]; a [Frame] prints as its value. *)
Definition Scene___str__ (self : Scene) : string :=
  let result :=
    if __eq__ (Scene_start self) (Scene_end self)
    then format_d (value (Scene_start self))
    else (format_d (value (Scene_start self)) ++ " - "
          ++ format_d (value (Scene_end self)))%string in
  if String.eqb (Scene_label self) EmptyString then result
  else (result ++ ": " ++ Scene_label self)%string.

(* ================================================================== *)
(** * utils/utils.py, continued                                        *)
(* ================================================================== *)

(** Qt's [QTime(h, m, s, ms)], kept as its four constructor arguments.  A
    [QTime] is valid when the hour is in 0..23, minute and second in 0..59
    and the milliseconds in 0..999; [msecsSinceStartOfDay] of an invalid
    [QTime] is 0. *)
Record QTime : Type := mk_QTime {
  qtime_hour : Z;
  qtime_minute : Z;
  qtime_second : Z;
  qtime_msec : Z
}.

Definition QTime_isValid (q : QTime) : bool :=
  (0 <=? qtime_hour q) && (qtime_hour q <=? 23) &&
  (0 <=? qtime_minute q) && (qtime_minute q <=? 59) &&
  (0 <=? qtime_second q) && (qtime_second q <=? 59) &&
  (0 <=? qtime_msec q) && (qtime_msec q <=? 999).

Definition msecsSinceStartOfDay (q : QTime) : Z :=
  if QTime_isValid q
  then ((qtime_hour q * 60 + qtime_minute q) * 60 + qtime_second q) * 1000 + qtime_msec q
  else 0.

(** [to_qtime(time)], on [td = time.value]. *)
Definition to_qtime (td : timedelta) : QTime :=
  mk_QTime (td_seconds td / 3600) (td_seconds td / 60) (td_seconds td mod 60)
    (td_microseconds td / 1000).

(** [from_qtime(qtime, t)]: [t(milliseconds=qtime.msecsSinceStartOfDay())],
    as the timedelta both time classes wrap. *)
Definition from_qtime (qtime : QTime) : timedelta :=
  timedelta_milliseconds (msecsSinceStartOfDay qtime).

(** [set_status_label(label)(func)]: the text of the status bar label is
    the state; [func] may read and change it. *)
Definition set_status_label {A} (label : string) (func : string -> result A * string)
  : string -> result A * string :=
  fun text =>
    let text1 := if String.eqb text "Ready" then label else text in
    match func text1 with
    | (Ok ret, text2) => (Ok ret, if String.eqb text2 label then "Ready"%string else text2)
    | (Raise e, text2) => (Raise e, text2)
    end.

(* ================================================================== *)
(** * toolbars/benchmark.py, continued: [update_controls]              *)
(* ================================================================== *)

(** [update_controls(start=None, end=None, total=None)]: the three values
    handed to [setValue] of the frame controls ([None] when the method
    returns at once).  [output_end_frame] is
    [self.main.current_output.end_frame].  The time controls receive the
    same values converted by [Time(...)] and [TimeInterval(...)]. *)
Definition update_controls (start end_ : option Frame) (total : option FrameInterval)
           (ctl : Controls) (output_end_frame : Frame)
  : option (Frame * Frame * FrameInterval) :=
  let one := FrameInterval_of_int 1 in
  match start, end_, total with
  | Some start, _, _ =>
      let end_ := end_frame_control ctl in
      let end_ := if __gt__ start end_ then start else end_ in
      Some (start, end_, FrameInterval___add__ (Frame_sub_Frame end_ start) one)
  | None, Some end_, _ =>
      let start := start_frame_control ctl in
      let start := if __lt__ end_ start then end_ else start in
      Some (start, end_, FrameInterval___add__ (Frame_sub_Frame end_ start) one)
  | None, None, Some total =>
      let start := start_frame_control ctl in
      let end_ := end_frame_control ctl in
      let old_total := FrameInterval___add__ (Frame_sub_Frame end_ start) one in
      let delta := FrameInterval___sub__ total old_total in
      let end_ := Frame___iadd__ end_ delta in
      if __gt__ end_ output_end_frame
      then Some (Frame___isub__ start (OInterval (Frame_sub_Frame end_ output_end_frame)),
                 output_end_frame, total)
      else Some (start, end_, total)
  | None, None, None => None
  end.

(** The controls once [setValue] has stored the three values. *)
Definition controls_updated (ctl : Controls) (v : Frame * Frame * FrameInterval)
  : Controls :=
  let '(start, end_, total) := v in
  mk_Controls start end_ total (prefetch_checkbox ctl) (unsequenced_checkbox ctl).


(** [on_prefetch_changed(new_state)] and [set_ui_editable(new_state)] on the
    two checkboxes: whether each is checked and whether it is enabled. *)
Inductive CheckState : Type := Unchecked | PartiallyChecked | Checked.

Record Checkboxes : Type := mk_Checkboxes {
  prefetch_checked : bool;
  prefetch_enabled : bool;
  unsequenced_checked : bool;
  unsequenced_enabled : bool
}.

(** [BenchmarkToolbar.setup_ui]: both checkboxes are created checked. *)
Definition setup_ui : Checkboxes := mk_Checkboxes true true true true.

Definition on_prefetch_changed (new_state : CheckState) (b : Checkboxes) : Checkboxes :=
  match new_state with
  | Checked =>
      mk_Checkboxes (prefetch_checked b) (prefetch_enabled b) (unsequenced_checked b) true
  | Unchecked =>
      mk_Checkboxes (prefetch_checked b) (prefetch_enabled b) false false
  | PartiallyChecked => b
  end.

Module Checkboxes.
(** [set_ui_editable(new_state)], as far as the checkboxes go. *)
Definition set_ui_editable (new_state : bool) (b : Checkboxes) : Checkboxes :=
  mk_Checkboxes (prefetch_checked b) new_state (unsequenced_checked b) new_state.
End Checkboxes.

(** A click of the user on a checkbox: a disabled checkbox ignores it; the
    prefetch checkbox emits [stateChanged], connected to
    [on_prefetch_changed]. *)
Inductive checkbox_click : Type := ClickPrefetch | ClickUnsequenced.

Definition click (c : checkbox_click) (b : Checkboxes) : Checkboxes :=
  match c with
  | ClickPrefetch =>
      if prefetch_enabled b
      then
        let checked := negb (prefetch_checked b) in
        on_prefetch_changed (if checked then Checked else Unchecked)
          (mk_Checkboxes checked (prefetch_enabled b) (unsequenced_checked b)
             (unsequenced_enabled b))
      else b
  | ClickUnsequenced =>
      if unsequenced_enabled b
      then mk_Checkboxes (prefetch_checked b) (prefetch_enabled b)
             (negb (unsequenced_checked b)) (unsequenced_enabled b)
      else b
  end.

Definition clicks (cs : list checkbox_click) (b : Checkboxes) : Checkboxes :=
  fold_left (fun b c => click c b) cs b.

(* ================================================================== *)
(** * core/types.py, continued: [Output.__init__]                      *)
(* ================================================================== *)

(** The counts and times [Output.__init__] derives from the clip, in the
    order of the assignments; [num_frames] is [clip.num_frames]. *)
Record OutputRange : Type := mk_OutputRange {
  Output_total_frames : FrameInterval;
  Output_total_time : TimeInterval;
  Output_end_frame : Frame;
  Output_end_time : Time
}.

Definition Output___init__ (self : Output) (num_frames : Z) : result OutputRange :=
  let total_frames := FrameInterval_of_int num_frames in
  result_bind
    (to_time_interval self (FrameInterval___sub__ total_frames (FrameInterval_of_int 1)))
    (fun total_time =>
  result_bind (Frame_of_int (__int__ total_frames - 1)) (fun end_frame =>
  result_bind (to_time self end_frame) (fun end_time =>
    Ok (mk_OutputRange total_frames total_time end_frame end_time)))).

(* ================================================================== *)
(** * toolbars/benchmark.py, continued: [on_current_output_changed]    *)
(* ================================================================== *)

(** The value last handed to [setMaximum] of each of the six controls. *)
Record ControlMaxima : Type := mk_ControlMaxima {
  start_frame_maximum : Frame;
  start_time_maximum : Time;
  end_frame_maximum : Frame;
  end_time_maximum : Time;
  total_frames_maximum : FrameInterval;
  total_time_maximum : TimeInterval
}.

Definition set_start_frame_maximum (v : Frame) (m : ControlMaxima) : ControlMaxima :=
  mk_ControlMaxima v (start_time_maximum m) (end_frame_maximum m) (end_time_maximum m)
    (total_frames_maximum m) (total_time_maximum m).
Definition set_start_time_maximum (v : Time) (m : ControlMaxima) : ControlMaxima :=
  mk_ControlMaxima (start_frame_maximum m) v (end_frame_maximum m) (end_time_maximum m)
    (total_frames_maximum m) (total_time_maximum m).
Definition set_end_frame_maximum (v : Frame) (m : ControlMaxima) : ControlMaxima :=
  mk_ControlMaxima (start_frame_maximum m) (start_time_maximum m) v (end_time_maximum m)
    (total_frames_maximum m) (total_time_maximum m).
Definition set_end_time_maximum (v : Time) (m : ControlMaxima) : ControlMaxima :=
  mk_ControlMaxima (start_frame_maximum m) (start_time_maximum m) (end_frame_maximum m) v
    (total_frames_maximum m) (total_time_maximum m).
Definition set_total_frames_maximum (v : FrameInterval) (m : ControlMaxima)
  : ControlMaxima :=
  mk_ControlMaxima (start_frame_maximum m) (start_time_maximum m) (end_frame_maximum m)
    (end_time_maximum m) v (total_time_maximum m).
Definition set_total_time_maximum (v : TimeInterval) (m : ControlMaxima)
  : ControlMaxima :=
  mk_ControlMaxima (start_frame_maximum m) (start_time_maximum m) (end_frame_maximum m)
    (end_time_maximum m) (total_frames_maximum m) v.

(** [on_current_output_changed]: seven calls of [setMaximum], the last two
    on [total_time_control].  [TimeInterval(FrameInterval(1))] converts
    through the current output and can raise, after the first six calls
    were made. *)
Definition on_current_output_changed (current_output : Output) (r : OutputRange)
           (m : ControlMaxima) : result unit * ControlMaxima :=
  let m := set_start_frame_maximum (Output_end_frame r) m in
  let m := set_start_time_maximum (Output_end_time r) m in
  let m := set_end_frame_maximum (Output_end_frame r) m in
  let m := set_end_time_maximum (Output_end_time r) m in
  let m := set_total_frames_maximum (Output_total_frames r) m in
  let m := set_total_time_maximum (Output_total_time r) m in
  match to_time_interval current_output (FrameInterval_of_int 1) with
  | Ok one_frame => (Ok tt, set_total_time_maximum one_frame m)
  | Raise e => (Raise e, m)
  end.

(* ================================================================== *)
(** * widgets/custom/edits.py                                          *)
(* ================================================================== *)

(** [FrameEdit] and [TimeEdit]: the value held by the Qt widget and the
    attribute [oldValue]; a change of the widget's value to [v] stores [v]
    and calls the slot, which emits [valueChanged(value, oldValue)]. *)
Record FrameEdit : Type := mk_FrameEdit {
  FrameEdit_value : Z;
  FrameEdit_oldValue : Z
}.

(** [FrameEdit.__init__], the spin box starting at 0. *)
Definition FrameEdit___init__ : FrameEdit := mk_FrameEdit 0 0.



Record TimeEdit : Type := mk_TimeEdit {
  TimeEdit_value : timedelta;
  TimeEdit_oldValue : timedelta
}.

(** [TimeEdit.__init__], the time edit starting at 0:00:00. *)
Definition TimeEdit___init__ : TimeEdit := mk_TimeEdit (mk_timedelta 0) (mk_timedelta 0).




(* ================================================================== *)
(** * Auxiliary definitions used in the statements                     *)
(* ================================================================== *)

(** The two locals of [update_info]. *)
Definition run_time (now : Q) (t : BenchmarkToolbar) : TimeInterval :=
  TimeInterval_of_seconds (now - run_start_time t)%Q.

Definition frames_done (t : BenchmarkToolbar) : FrameInterval :=
  FrameInterval___sub__ (total_frames t) (frames_left t).


(** Controls set to the range [first .. last], prefetch on. *)
Definition sample_controls (first last : Z) (unseq : bool) : Controls :=
  mk_Controls (mk_Frame first) (mk_Frame last)
    (mk_FrameInterval (last - first + 1)) true unseq.


(** The toolbar a returning [abort] leaves: not running, refresh timer
    stopped, button released (and the controls editable again if the button
    had to be released), [label] on [info_label]. *)
Definition after_abort (t : BenchmarkToolbar) (label : option info)
  : BenchmarkToolbar :=
  mk_BenchmarkToolbar false (unsequenced t) (buffer t) (run_start_time t)
    (start_frame t) (end_frame t) (total_frames t) (frames_left t)
    (sequenced_timer t) false false
    (if run_abort_button t then true else ui_editable t) label.

Definition abort_result (now : Q) (t : BenchmarkToolbar) : result BenchmarkToolbar :=
  if running t
  then result_map (fun i => after_abort t (Some i)) (info_str now t)
  else Ok (after_abort t (info_label t)).

(** The test [self.frames_left <= FrameInterval(0)] and the final
    [self.frames_left -= FrameInterval(1)] of both request handlers. *)
Definition frames_left_exhausted (t : BenchmarkToolbar) : bool :=
  __le__ (frames_left t) (FrameInterval_of_int 0).

Definition decremented (t : BenchmarkToolbar) : BenchmarkToolbar :=
  set_frames_left (FrameInterval___isub__ (frames_left t) (FrameInterval_of_int 1)) t.

(** The toolbar with which [run] enters its loop, when [deque([], n)] does
    not raise. *)
Definition run_started (ctl : Controls) (cpus : Z) (now : Q) (t : BenchmarkToolbar)
  : BenchmarkToolbar :=
  mk_BenchmarkToolbar true (unsequenced_checkbox ctl)
    (if unsequenced_checkbox ctl then buffer t
     else mk_deque [] (Some (Z.to_nat (concurrent_requests_count ctl cpus))))
    now
    (start_frame_control ctl) (end_frame_control ctl) (total_frames_control ctl)
    (mk_FrameInterval (value (total_frames_control ctl)))
    (if unsequenced_checkbox ctl then sequenced_timer t else true)
    (update_info_timer t) (run_abort_button t) (ui_editable t) (info_label t).

(** Number of iterations of the loop of [run]. *)
Definition initial_requests (ctl : Controls) (cpus : Z) : nat :=
  Z.to_nat (Z.min (value (total_frames_control ctl)) (concurrent_requests_count ctl cpus)).

(** [h] is [h0] followed by later events. *)
Definition extends (h0 h : history) : Prop := exists l : history, h = l ++ h0.

(** At every point of the history [h] since [h0], at most [c] requests
    were in flight. *)
Definition run_bounded (h0 : history) (c : nat) (h : history) : Prop :=
  forall l1 l2 : history, h = l1 ++ l2 ++ h0 -> (in_flight (l2 ++ h0) <= c)%nat.

(** The fields that neither [abort] nor [update_info] assigns. *)
Definition same_run_state (t t' : BenchmarkToolbar) : Prop :=
  unsequenced t' = unsequenced t /\
  buffer t' = buffer t /\
  run_start_time t' = run_start_time t /\
  start_frame t' = start_frame t /\
  end_frame t' = end_frame t /\
  total_frames t' = total_frames t /\
  frames_left t' = frames_left t /\
  sequenced_timer t' = sequenced_timer t.

(** While no run is going on the refresh timer is stopped and the button
    is released. *)
Definition idle_consistent (t : BenchmarkToolbar) : Prop :=
  running t = false -> update_info_timer t = false /\ run_abort_button t = false.

(** Sequenced mode: every request in flight sits in the bounded buffer;
    [slack] is the number of requests still to be added to it. *)
Definition buffer_inv (h0 : history) (c slack : nat) (buf : deque) (h : history)
  : Prop :=
  extends h0 h /\
  run_bounded h0 c h /\
  maxlen buf = Some c /\
  (List.length (items buf) + slack <= c)%nat /\
  (forall f, In f (pending h) -> In f (items buf)) /\
  (forall f, In f (items buf) ->
     (f < List.length (requests h))%nat /\ has_callback h f = false).

Definition sequenced_inv (h0 : history) (c slack : nat) (w : World) : Prop :=
  unsequenced (toolbar w) = false /\
  buffer_inv h0 c slack (buffer (toolbar w)) (source w).

(** Unsequenced mode: the sequenced timer is off and the requests in flight
    leave room for the [slack] requests [run] still has to add. *)
Definition unsequenced_inv (h0 : history) (c slack : nat) (w : World) : Prop :=
  extends h0 (source w) /\
  run_bounded h0 c (source w) /\
  sequenced_timer (toolbar w) = false /\
  (in_flight (source w) + slack <= c)%nat.

(** An input that does not start another run: the button is only clicked
    while it is checked, which aborts. *)
Definition keeps_run (i : input) (w : World) : bool :=
  match i with
  | Press _ _ _ => run_abort_button (toolbar w)
  | _ => true
  end.

(** The worlds a run goes through once started. *)
Inductive during_run (w0 : World) : World -> Prop :=
| during_run_start : during_run w0 w0
| during_run_step (i : input) (w : World) :
    during_run w0 w -> enabled i w = true -> keeps_run i w = true ->
    during_run w0 (snd (handle i w)).

(** The toolbar as [on_run_abort_pressed(checked)] sees it after the click
    toggled the button and [set_ui_editable(not checked)] ran. *)
Definition pressed (checked : bool) (t : BenchmarkToolbar) : BenchmarkToolbar :=
  set_ui_editable_flag (negb checked) (set_run_abort_button checked t).

(** The fields [abort] decides on. *)
Definition same_idle_fields (t t' : BenchmarkToolbar) : Prop :=
  running t' = running t /\
  update_info_timer t' = update_info_timer t /\
  run_abort_button t' = run_abort_button t.


(** The controls describe the range [start .. end] and its length. *)
Definition valid_controls (ctl : Controls) : Prop :=
  0 <= value (start_frame_control ctl) /\
  value (start_frame_control ctl) <= value (end_frame_control ctl) /\
  value (total_frames_control ctl)
  = value (end_frame_control ctl) - value (start_frame_control ctl) + 1.

(** The frame numbers [first, first + 1, ..., first + n - 1]. *)
Definition frame_run (first : Z) (n : nat) : list Z :=
  map (fun i => first + Z.of_nat i) (seq 0 n).

(** Since [h0], whenever a frame [k] with [first <= k - c] was requested, a
    request for frame [k - c] had been issued after [h0] and no request for
    frame [k - c] was still in flight. *)
Definition ordered_since (h0 : history) (c : nat) (first : Z) (h : history) : Prop :=
  forall (l1 l2 : history) (k : Z) (cb : bool),
    h = l1 ++ Requested k cb :: l2 ++ h0 ->
    first <= k - Z.of_nat c ->
    (exists f : nat,
        (List.length (requests h0) <= f)%nat /\
        nth_error (issued (l2 ++ h0)) f = Some (k - Z.of_nat c)) /\
    (forall f : nat,
        nth_error (issued (l2 ++ h0)) f = Some (k - Z.of_nat c) ->
        ~ In f (pending (l2 ++ h0))).

(** Sequenced mode with the controls [first], [last], [total], after [a]
    requests of [run] and [j] completed timer ticks: the buffer holds the [a] newest
    futures, every older one has been waited for, and the requests issued
    are the first [a] frames followed by the first [j] frames again. *)
Definition sequenced_closed (h0 : history) (first last total : Z) (c a j : nat)
           (w : World) : Prop :=
  unsequenced (toolbar w) = false /\
  start_frame (toolbar w) = mk_Frame first /\
  end_frame (toolbar w) = mk_Frame last /\
  value (frames_left (toolbar w)) = total - Z.of_nat j /\
  buffer (toolbar w)
  = mk_deque (rev (seq (List.length (requests h0) + j) a)) (Some c) /\
  issued (source w) = issued h0 ++ frame_run first a ++ frame_run first j /\
  (forall f, In f (pending (source w)) -> (List.length (requests h0) + j <= f)%nat) /\
  extends h0 (source w) /\
  ordered_since h0 c first (source w).

(** Unsequenced mode over the range [first .. last], left to itself: [q]
    requests made, for the first [q] frames in order; the toolbar runs and
    counts the frames not yet requested, or has stopped with none left. *)
Definition unsequenced_closed (h0 : history) (first last : Z) (q : nat) (w : World)
  : Prop :=
  unsequenced (toolbar w) = true /\
  sequenced_timer (toolbar w) = false /\
  end_frame (toolbar w) = mk_Frame last /\
  issued (source w) = issued h0 ++ frame_run first q /\
  Z.of_nat q <= last - first + 1 /\
  ((running (toolbar w) = true /\
    value (frames_left (toolbar w)) = last - first + 1 - Z.of_nat q) \/
   (running (toolbar w) = false /\
    value (frames_left (toolbar w)) = 0 /\ Z.of_nat q = last - first + 1)).

(** [future.result()] on the optional argument of the unsequenced handler. *)
Definition waited (future : option nat) (h : history) : history :=
  match future with
  | Some f => if is_pending h f then Resolved f :: h else h
  | None => h
  end.

Definition is_press (i : input) : bool :=
  match i with
  | Press _ _ _ => true
  | _ => false
  end.

(** The worlds of a run that the user leaves alone: timer ticks,
    completions and polls only. *)
Inductive undisturbed (w0 : World) : World -> Prop :=
| undisturbed_start : undisturbed w0 w0
| undisturbed_step (i : input) (w : World) :
    undisturbed w0 w -> enabled i w = true -> is_press i = false ->
    undisturbed w0 (snd (handle i w)).

(** A format string without the delimiter [%]. *)
Fixpoint no_delimiter (s : string) : bool :=
  match s with
  | EmptyString => true
  | String c rest => negb (Ascii.eqb c "%") && no_delimiter rest
  end.

(** [time.value] truncated to the millisecond. *)
Definition whole_milliseconds (td : timedelta) : timedelta :=
  mk_timedelta (total_us td - total_us td mod 1000).

(** A run started at [now] is going on: the toolbar runs, the button is
    down and the sequenced timer ticks. *)
Definition run_in_progress (now : Q) (t : BenchmarkToolbar) : Prop :=
  running t = true /\
  run_abort_button t = true /\
  sequenced_timer t = true /\
  run_start_time t = now.

(** The futures in the buffer are distinct and none has resolved. *)
Definition buffer_in_flight (w : World) : Prop :=
  NoDup (items (buffer (toolbar w))) /\
  forall f : nat, In f (items (buffer (toolbar w))) -> In f (pending (source w)).
(* ================================================================== *)
(** * Properties                                                       *)
(* ================================================================== *)

(** ** Frame arithmetic *)

Lemma Frame_of_int_ok (n : Z) :
  0 <= n -> Frame_of_int n = Ok (mk_Frame n).
Proof.
  intros Hn. unfold Frame_of_int.
  destruct (Z.ltb_spec n 0); [lia | reflexivity].
Qed.

Lemma Frame_of_int_negative (n : Z) :
  n < 0 -> Frame_of_int n = Raise ValueError.
Proof.
  intros Hn. unfold Frame_of_int.
  destruct (Z.ltb_spec n 0); [reflexivity | lia].
Qed.

Lemma Frame_of_int_nonneg (n : Z) (f : Frame) :
  Frame_of_int n = Ok f -> 0 <= value f /\ value f = n.
Proof.
  unfold Frame_of_int. destruct (Z.ltb_spec n 0); intros E; [discriminate|].
  injection E as <-. cbn. lia.
Qed.

(** The checked operations: whatever [Frame] they return is non-negative. *)
Lemma Frame___add___nonneg (a : Frame) (d : FrameInterval) (r : Frame) :
  Frame___add__ a d = Ok r -> 0 <= value r.
Proof. intros E. apply Frame_of_int_nonneg in E. tauto. Qed.

Lemma Frame___sub___nonneg (a : Frame) (d : FrameInterval) (r : Frame) :
  Frame___sub__ a (OInterval d) = Ok (OFrame r) -> 0 <= value r.
Proof.
  unfold Frame___sub__, Frame_sub_FrameInterval.
  destruct (Frame_of_int (value a - value d)) eqn:E; cbn; intros E'; [|discriminate].
  injection E' as <-. apply Frame_of_int_nonneg in E. tauto.
Qed.

Lemma ge_value {T} `{YAMLObjectWrapper T} (a b : T) :
  __ge__ a b = true <-> value b <= value a.
Proof.
  unfold __ge__, __eq__, __gt__. rewrite orb_true_iff, Z.eqb_eq, Z.gtb_ltb, Z.ltb_lt.
  lia.
Qed.

(** C6 (the code at the failing input): the constructor rejects a negative
    integer with ValueError and the checked [+]/[-] go through it, but the
    in-place [-=] and [+=] assign [self.value] unchecked -- [Frame(2)] after
    [-= FrameInterval(5)], or after [+= FrameInterval(-5)], holds -3. *)
Theorem Frame_inplace_breaks_nonneg :
  Frame_of_int (-3) = Raise ValueError /\
  Frame___sub__ (mk_Frame 2) (OInterval (mk_FrameInterval 5)) = Raise ValueError /\
  Frame___isub__ (mk_Frame 2) (OInterval (mk_FrameInterval 5)) = mk_Frame (-3) /\
  Frame___iadd__ (mk_Frame 2) (mk_FrameInterval (-5)) = mk_Frame (-3) /\
  value (Frame___isub__ (mk_Frame 2) (OInterval (mk_FrameInterval 5))) < 0.
Proof. cbv. repeat split; reflexivity. Qed.

(** C7: for valid frames [a >= b], [a - b] is a FrameInterval with value
    [>= 0], and [b + (a - b)] is a Frame equal to [a]. *)
Theorem Frame_sub_add_roundtrip (a b : Frame) :
  0 <= value a -> 0 <= value b -> __ge__ a b = true ->
  exists d : FrameInterval,
    Frame___sub__ a (OFrame b) = Ok (OInterval d) /\
    0 <= value d /\
    exists r : Frame, Frame___add__ b d = Ok r /\ __eq__ r a = true /\ r = a.
Proof.
  intros Ha Hb Hge. apply ge_value in Hge.
  exists (mk_FrameInterval (value a - value b)). split; [reflexivity|].
  split; [cbn; lia|].
  exists a. unfold Frame___add__.
  replace (value b + value (mk_FrameInterval (value a - value b))) with (value a)
    by (cbn; lia).
  rewrite Frame_of_int_ok by assumption.
  destruct a as [va]. split; [reflexivity|].
  split; [unfold __eq__; apply Z.eqb_refl | reflexivity].
Qed.

Lemma Frame_sub_add_roundtrip_witness :
  exists d : FrameInterval,
    Frame___sub__ (mk_Frame 7) (OFrame (mk_Frame 3)) = Ok (OInterval d) /\
    0 <= value d /\
    exists r : Frame,
      Frame___add__ (mk_Frame 3) d = Ok r /\
      __eq__ r (mk_Frame 7) = true /\ r = mk_Frame 7.
Proof.
  apply (Frame_sub_add_roundtrip (mk_Frame 7) (mk_Frame 3)).
  - cbv. discriminate.
  - cbv. discriminate.
  - reflexivity.
Defined.

(** ** Frame <-> time conversion *)

Local Open Scope Q_scope.








(** ** Rounding to a double *)












(** ** [timedelta(seconds=x)] and [total_seconds] *)



(** ** The round trip frame -> seconds -> timedelta -> seconds -> frame *)





Local Close Scope Q_scope.

(** ** Duration formatting *)

Example strfdelta_sample :
  strfdelta (mk_timedelta 3723004000) "%D|%H|%M|%S|%Z|%h|%m|%s|%%|%{h}"%string
  = Ok "0|01|62|03|004|1|62| 3|%|1"%string.
Proof. vm_compute. reflexivity. Qed.

Example strfdelta_bad_placeholder :
  strfdelta (mk_timedelta 0) "%M:%"%string = Raise ValueError /\
  strfdelta (mk_timedelta 0) "%Mm"%string = Raise KeyError.
Proof. split; vm_compute; reflexivity. Qed.

Lemma substitute_single_M (d : mapping) :
  substitute "%M"%string d = mapping_get d "M"%string.
Proof. reflexivity. Qed.

Lemma substitute_single_m (d : mapping) :
  substitute "%m"%string d = mapping_get d "m"%string.
Proof. reflexivity. Qed.

Lemma strfdelta_minutes_split (td : timedelta) :
  strfdelta_minutes td = 60 * strfdelta_hours td + (td_seconds td mod 3600) / 60.
Proof.
  unfold strfdelta_minutes, strfdelta_hours.
  set (s := td_seconds td).
  pose proof (Z.div_mod s 3600 ltac:(lia)) as Hs.
  rewrite Hs at 1.
  replace (3600 * (s / 3600) + s mod 3600)
    with (s mod 3600 + (60 * (s / 3600)) * 60) by lia.
  rewrite Z.div_add by lia. lia.
Qed.

Lemma td_seconds_of_small (td : timedelta) :
  0 <= total_us td < 86400000000 -> td_seconds td = total_us td / 1000000.
Proof.
  intros [Hlo Hhi]. unfold td_seconds. apply Z.mod_small. split.
  - apply Z.div_pos; lia.
  - apply Z.div_lt_upper_bound; lia.
Qed.

(** C10 (amended): ['%M'] and ['%m'] are filled with [td.seconds // 60],
    the minutes of the whole seconds-of-day component: that is
    [60 * hours] plus the minutes within the hour, it exceeds 59 as soon as
    the seconds component reaches 3600 -- so for every duration from one
    hour up to, but excluding, 24 hours -- and one hour prints as
    ['1:60:00.000']. *)
Theorem strfdelta_minutes_field (td : timedelta) :
  strfdelta td "%M"%string = Ok (format_0d 2 (td_seconds td / 60)) /\
  strfdelta td "%m"%string = Ok (format_wd 2 (td_seconds td / 60)) /\
  td_seconds td / 60 = 60 * (td_seconds td / 3600) + (td_seconds td mod 3600) / 60 /\
  (3600 <= td_seconds td -> 59 < td_seconds td / 60) /\
  (3600000000 <= total_us td < 86400000000 -> 59 < td_seconds td / 60) /\
  Time___str__ (mk_Time (mk_timedelta 3600000000)) = Ok "1:60:00.000"%string.
Proof.
  split; [reflexivity|]. split; [reflexivity|].
  split; [apply strfdelta_minutes_split|].
  assert (3600 <= td_seconds td -> 59 < td_seconds td / 60) as Hmin.
  { intros Hs. apply Z.div_le_lower_bound with (b := 60) (q := 60) in Hs; lia. }
  split; [exact Hmin|]. split; [|vm_compute; reflexivity].
  intros Hus. apply Hmin. rewrite td_seconds_of_small by lia.
  apply Z.div_le_lower_bound; lia.
Qed.

Lemma strfdelta_minutes_field_witness :
  59 < td_seconds (mk_timedelta 5400000000) / 60 /\
  strfdelta (mk_timedelta 5400000000) "%M"%string = Ok "90"%string.
Proof.
  pose proof (strfdelta_minutes_field (mk_timedelta 5400000000))
    as (HM & _ & _ & Hsec & Hus & _).
  split.
  - apply Hus. cbn. lia.
  - rewrite HM. vm_compute. reflexivity.
Defined.

(** C10 (the claim as stated fails): [td.seconds] leaves the whole days
    out, so a duration of exactly 24 hours -- one hour or more -- has a
    minutes field of 00 and prints as ['0:00:00.000']. *)
Lemma strfdelta_minutes_one_day :
  Time___str__ (mk_Time (mk_timedelta 86400000000)) = Ok "0:00:00.000"%string /\
  strfdelta (mk_timedelta 86400000000) "%M"%string = Ok "00"%string /\
  ~ (forall td : timedelta,
        3600000000 <= total_us td -> 59 < strfdelta_minutes td).
Proof.
  split; [vm_compute; reflexivity|]. split; [vm_compute; reflexivity|].
  intros H. specialize (H (mk_timedelta 86400000000) ltac:(cbn; lia)).
  vm_compute in H. discriminate.
Qed.

(** ** The benchmark toolbar: [update_info] and [abort] *)


Lemma info_str_zero (now : Q) (t : BenchmarkToolbar) :
  total_us (TimeInterval_value (run_time now t)) = 0 ->
  info_str now t = Raise ZeroDivisionError.
Proof.
  intros Hz. unfold info_str. fold (run_time now t).
  unfold TimeInterval___float__, total_seconds. rewrite Hz. reflexivity.
Qed.



Lemma update_info_spec (now : Q) (w : World) :
  update_info now w =
    match info_str now (toolbar w) with
    | Ok i => (Ok tt, mk_World (set_info_label (Some i) (toolbar w)) (source w))
    | Raise e => (Raise e, w)
    end.
Proof.
  unfold update_info, bind, read, lift, write.
  destruct (info_str now (toolbar w)); reflexivity.
Qed.




Lemma abort_depth_spec (depth : nat) (now : Q) (w : World) :
  abort_depth (S (S depth)) now w =
    match abort_result now (toolbar w) with
    | Ok t' => (Ok tt, mk_World t' (source w))
    | Raise e => (Raise e, w)
    end.
Proof.
  destruct w as [t h]. unfold abort_result.
  cbn [abort_depth]. unfold bind at 1. unfold read at 1. cbn [toolbar source].
  destruct (running t) eqn:Hrun.
  - unfold when at 1. unfold bind at 1. rewrite update_info_spec. cbn [toolbar source].
    destruct (info_str now t) as [i|e]; [|reflexivity].
    destruct t as [r u b st sf ef tf fl stm utm btn ui lbl].
    destruct btn; reflexivity.
  - destruct t as [r u b st sf ef tf fl stm utm btn ui lbl]. cbn in Hrun. subst r.
    destruct btn; reflexivity.
Qed.

Lemma abort_spec (now : Q) (w : World) :
  abort now w =
    match abort_result now (toolbar w) with
    | Ok t' => (Ok tt, mk_World t' (source w))
    | Raise e => (Raise e, w)
    end.
Proof. apply (abort_depth_spec 998). Qed.

Lemma after_abort_fixed (t : BenchmarkToolbar) :
  running t = false -> update_info_timer t = false -> run_abort_button t = false ->
  after_abort t (info_label t) = t.
Proof.
  destruct t as [r u b st sf ef tf fl stm utm btn ui lbl]. cbn.
  intros -> -> ->. reflexivity.
Qed.

(** A returning [abort] leaves a state on which [abort] does nothing. *)
Lemma abort_result_stable (now now' : Q) (t t' : BenchmarkToolbar) :
  abort_result now t = Ok t' -> abort_result now' t' = Ok t'.
Proof.
  unfold abort_result. intros E.
  assert (running t' = false /\ update_info_timer t' = false /\
          run_abort_button t' = false) as (Hr & Hu & Hb).
  { destruct (running t).
    - destruct (info_str now t); cbn in E; [|discriminate].
      injection E as <-. auto.
    - injection E as <-. auto. }
  rewrite Hr. f_equal. now apply after_abort_fixed.
Qed.

(** ** The two request handlers, path by path *)

Lemma le_zero_value {T} `{YAMLObjectWrapper T} (a b : T) :
  __le__ a b = true <-> value a <= value b.
Proof.
  unfold __le__, __gt__. rewrite negb_true_iff, Z.gtb_ltb, Z.ltb_ge. reflexivity.
Qed.

Lemma le_false_value {T} `{YAMLObjectWrapper T} (a b : T) :
  __le__ a b = false <-> value b < value a.
Proof.
  unfold __le__, __gt__. rewrite negb_false_iff, Z.gtb_ltb, Z.ltb_lt. reflexivity.
Qed.

Ltac split_ands := repeat match goal with |- _ /\ _ => split end.

Ltac handler_unfold :=
  cbv beta iota zeta delta
    [bind read write lift ret raise when future_result get_frame_async
     decrement_frames_left toolbar source fst snd].

Lemma sequenced_exhausted (now : Q) (w : World) :
  frames_left_exhausted (toolbar w) = true ->
  _request_next_frame_sequenced now w = abort now w.
Proof.
  unfold frames_left_exhausted, _request_next_frame_sequenced. intros E.
  unfold bind at 1. unfold read at 1. cbn [toolbar]. rewrite E. reflexivity.
Qed.

Lemma sequenced_request (now : Q) (w : World) :
  frames_left_exhausted (toolbar w) = false ->
  _request_next_frame_sequenced now w =
    match pop (buffer (toolbar w)) with
    | Raise e => (Raise e, w)
    | Ok (f, buf) =>
        let h1 := if is_pending (source w) f then Resolved f :: source w else source w in
        let t1 := set_buffer buf (toolbar w) in
        match next_frame_of t1 with
        | Raise e => (Raise e, mk_World t1 h1)
        | Ok next_frame =>
            if __le__ next_frame (end_frame t1)
            then (Ok tt,
                  mk_World
                    (decremented
                       (set_buffer (appendleft (List.length (requests h1)) buf) t1))
                    (Requested (value next_frame) false :: h1))
            else (Ok tt, mk_World (decremented t1) h1)
        end
    end.
Proof.
  destruct w as [t h]. unfold frames_left_exhausted. cbn [toolbar source]. intros E.
  unfold _request_next_frame_sequenced. handler_unfold. rewrite E.
  destruct (pop (buffer t)) as [[f buf]|e]; [|reflexivity].
  cbn [fst snd].
  destruct (is_pending h f);
    (destruct (next_frame_of (set_buffer buf t)) as [nf|e]; [|reflexivity];
     cbn [end_frame set_buffer];
     destruct (__le__ nf (end_frame t)); reflexivity).
Qed.

Lemma unsequenced_exhausted (future : option nat) (now : Q) (w : World) :
  frames_left_exhausted (toolbar w) = true ->
  _request_next_frame_unsequenced future now w = abort now w.
Proof.
  unfold frames_left_exhausted, _request_next_frame_unsequenced. intros E.
  unfold bind at 1. unfold read at 1. cbn [toolbar]. rewrite E. reflexivity.
Qed.

Lemma unsequenced_request (future : option nat) (now : Q) (w : World) :
  frames_left_exhausted (toolbar w) = false ->
  let waited (h : history) : history :=
    match future with
    | Some f => if is_pending h f then Resolved f :: h else h
    | None => h
    end in
  _request_next_frame_unsequenced future now w =
    if running (toolbar w)
    then
      match next_frame_of (toolbar w) with
      | Raise e => (Raise e, w)
      | Ok next_frame =>
          (Ok tt,
           mk_World (decremented (toolbar w))
             (waited (Requested (value next_frame) true :: source w)))
      end
    else (Ok tt, mk_World (decremented (toolbar w)) (waited (source w))).
Proof.
  destruct w as [t h]. unfold frames_left_exhausted. cbn [toolbar source]. intros E.
  cbv zeta. unfold _request_next_frame_unsequenced. handler_unfold. rewrite E.
  destruct (running t).
  - destruct (next_frame_of t) as [nf|e]; [|reflexivity].
    destruct future as [f|]; [|reflexivity].
    destruct (is_pending _ f); reflexivity.
  - destruct future as [f|]; [|reflexivity].
    destruct (is_pending h f); reflexivity.
Qed.

(** ** Histories *)

Lemma requests_length_cons (e : source_event) (h : history) :
  (List.length (requests h) <= List.length (requests (e :: h)))%nat.
Proof.
  destruct e; cbn; [rewrite length_app; cbn|]; lia.
Qed.

Lemma pending_issued (h : history) (f : nat) :
  In f (pending h) -> (f < List.length (requests h))%nat.
Proof.
  induction h as [|[index cb|g] h IH]; cbn; intros Hin.
  - contradiction.
  - rewrite length_app. cbn. destruct Hin as [<- | Hin]; [lia|].
    specialize (IH Hin). lia.
  - apply in_remove in Hin. now apply IH.
Qed.

Lemma NoDup_remove {A} (dec : forall x y : A, {x = y} + {x <> y}) (x : A) (l : list A) :
  NoDup l -> NoDup (remove dec x l).
Proof.
  induction 1 as [|y l Hy Hl IH]; cbn; [constructor|].
  destruct (dec x y); [assumption|].
  constructor; [|assumption]. intros Hin. apply in_remove in Hin. tauto.
Qed.

Lemma pending_NoDup (h : history) : NoDup (pending h).
Proof.
  induction h as [|[index cb|g] h IH]; cbn.
  - constructor.
  - constructor; [|assumption]. intros Hin. apply pending_issued in Hin. lia.
  - now apply NoDup_remove.
Qed.

Lemma is_pending_In (h : history) (f : nat) :
  is_pending h f = true <-> In f (pending h).
Proof.
  unfold is_pending. rewrite existsb_exists. split.
  - intros (x & Hin & E). apply Nat.eqb_eq in E. now subst.
  - intros Hin. exists f. split; [assumption | apply Nat.eqb_refl].
Qed.

Lemma is_pending_resolved (h : history) (f : nat) :
  is_pending (Resolved f :: h) f = false.
Proof.
  apply not_true_is_false. rewrite is_pending_In. cbn. apply remove_In.
Qed.

Lemma in_flight_resolved (h : history) (f : nat) :
  (in_flight (Resolved f :: h) <= in_flight h)%nat.
Proof. unfold in_flight. cbn. apply remove_length_le. Qed.


Lemma in_flight_requested (h : history) (index : Z) (cb : bool) :
  in_flight (Requested index cb :: h) = S (in_flight h).
Proof. reflexivity. Qed.

(** ** [run] *)

Lemma run_spec (ctl : Controls) (cpus : Z) (now : Q) (w : World) :
  0 <= concurrent_requests_count ctl cpus ->
  run ctl cpus now w =
    match for_each (map Z.of_nat (seq 0 (initial_requests ctl cpus))) (run_request now)
            (mk_World (run_started ctl cpus now (toolbar w)) (source w)) with
    | (Ok _, w') => (Ok tt, mk_World (set_update_info_timer true (toolbar w')) (source w'))
    | (Raise e, w') => (Raise e, w')
    end.
Proof.
  intros Hc. destruct w as [t h]. unfold run, run_started, initial_requests.
  unfold deque_new. destruct (Z.ltb_spec (concurrent_requests_count ctl cpus) 0); [lia|].
  destruct t as [r u b st sf ef tf fl stm utm btn ui lbl].
  destruct ctl as [cs ce ct cp cu].
  destruct cu; handler_unfold; reflexivity.
Qed.

Lemma run_request_unsequenced (now : Q) (offset : Z) (w : World) :
  unsequenced (toolbar w) = true ->
  run_request now offset w = _request_next_frame_unsequenced None now w.
Proof.
  intros E. unfold run_request. unfold bind at 1. unfold read at 1. rewrite E.
  reflexivity.
Qed.

Lemma run_request_sequenced (now : Q) (offset : Z) (w : World) :
  unsequenced (toolbar w) = false ->
  run_request now offset w =
    match Frame___add__ (start_frame (toolbar w)) (FrameInterval_of_int offset) with
    | Raise e => (Raise e, w)
    | Ok frame =>
        (Ok tt,
         mk_World
           (set_buffer (appendleft (List.length (requests (source w)))
                          (buffer (toolbar w))) (toolbar w))
           (Requested (value frame) false :: source w))
    end.
Proof.
  intros E. destruct w as [t h]. cbn [toolbar source] in *.
  unfold run_request. handler_unfold. rewrite E.
  destruct (Frame___add__ (start_frame t) (FrameInterval_of_int offset)); reflexivity.
Qed.

Lemma for_each_invariant {A} (P : nat -> World -> Prop) (body : A -> M unit) :
  (forall n w, P (S n) w -> P n w) ->
  (forall n x w, P (S n) w -> P n (snd (body x w))) ->
  forall (xs : list A) (w : World),
    P (List.length xs) w -> P 0%nat (snd (for_each xs body w)).
Proof.
  intros Hmono Hbody.
  assert (forall n w, P n w -> P 0%nat w) as Hzero.
  { induction n; intros w Hw; [assumption|]. apply IHn. now apply Hmono. }
  induction xs as [|x xs IH]; intros w Hw; cbn in *.
  - assumption.
  - unfold bind. specialize (Hbody _ x w Hw).
    destruct (body x w) as [[[]|e] w']; cbn in *.
    + now apply IH.
    + now apply Hzero with (n := List.length xs).
Qed.

(** ** Growth of the history *)

Lemma extends_refl (h : history) : extends h h.
Proof. now exists []. Qed.

Lemma extends_cons (h0 h : history) (e : source_event) :
  extends h0 h -> extends h0 (e :: h).
Proof. intros [l ->]. now exists (e :: l). Qed.

Lemma run_bounded_start (h0 : history) (c : nat) :
  (in_flight h0 <= c)%nat -> run_bounded h0 c h0.
Proof.
  intros Hc l1 l2 E.
  assert (List.length (l1 ++ l2 ++ h0) = List.length h0) as Hlen by now rewrite <- E.
  rewrite !length_app in Hlen.
  destruct l2; [assumption | cbn in Hlen; lia].
Qed.

Lemma run_bounded_cons (h0 h : history) (c : nat) (e : source_event) :
  extends h0 h -> run_bounded h0 c h -> (in_flight (e :: h) <= c)%nat ->
  run_bounded h0 c (e :: h).
Proof.
  intros [l ->] Hb He l1 l2 E.
  assert (e :: l = l1 ++ l2) as E'.
  { apply app_inv_tail with (l := h0). rewrite <- app_assoc. exact E. }
  destruct l1 as [|e1 l1]; cbn in E'.
  - subst l2. exact He.
  - injection E' as -> ->. apply (Hb l1 l2). now rewrite app_assoc.
Qed.

Lemma run_bounded_now (h0 h : history) (c : nat) :
  extends h0 h -> run_bounded h0 c h -> (in_flight h <= c)%nat.
Proof. intros [l ->] Hb. now apply (Hb [] l). Qed.

(** ** What [abort] and [update_info] leave alone *)

Lemma same_run_state_refl (t : BenchmarkToolbar) : same_run_state t t.
Proof. repeat split. Qed.

Lemma same_run_state_trans (t1 t2 t3 : BenchmarkToolbar) :
  same_run_state t1 t2 -> same_run_state t2 t3 -> same_run_state t1 t3.
Proof.
  unfold same_run_state. intros (?&?&?&?&?&?&?&?) (?&?&?&?&?&?&?&?).
  repeat split; congruence.
Qed.

Lemma update_info_same (now : Q) (w : World) :
  exists t' : BenchmarkToolbar,
    snd (update_info now w) = mk_World t' (source w) /\
    same_run_state (toolbar w) t' /\
    running t' = running (toolbar w) /\
    update_info_timer t' = update_info_timer (toolbar w) /\
    run_abort_button t' = run_abort_button (toolbar w).
Proof.
  rewrite update_info_spec. destruct w as [t h]. cbn [toolbar source].
  destruct (info_str now t); cbn [snd].
  - eexists. split; [reflexivity|]. repeat split.
  - exists t. repeat split.
Qed.

Lemma abort_same (now : Q) (w : World) :
  exists t' : BenchmarkToolbar,
    snd (abort now w) = mk_World t' (source w) /\
    same_run_state (toolbar w) t' /\
    idle_consistent t'.
Proof.
  rewrite abort_spec. destruct w as [t h]. cbn [toolbar source].
  unfold abort_result. destruct (running t) eqn:Hrun.
  - destruct (info_str now t); cbn [result_map result_bind snd].
    + eexists. split; [reflexivity|]. split; [repeat split|]. intros _. auto.
    + exists t. split; [reflexivity|]. split; [apply same_run_state_refl|].
      intros E. congruence.
  - eexists. split; [reflexivity|]. split; [repeat split|]. intros _. auto.
Qed.

(** ** Clicks on the Run/Abort button *)

Lemma handle_press (ctl : Controls) (cpus : nat) (now : Q) (w : World) :
  handle (Press ctl cpus now) w =
    if run_abort_button (toolbar w)
    then abort now (mk_World (pressed false (toolbar w)) (source w))
    else run ctl (Z.of_nat cpus) now (mk_World (pressed true (toolbar w)) (source w)).
Proof.
  destruct w as [t h]. cbn [handle toolbar source].
  unfold on_run_abort_pressed, set_ui_editable, pressed.
  unfold bind at 1. unfold read at 1. cbn [toolbar source].
  unfold bind at 1. unfold write at 1. cbn [toolbar source].
  destruct (run_abort_button t); reflexivity.
Qed.

Lemma concurrent_requests_count_nonneg (ctl : Controls) (cpus : nat) :
  0 <= concurrent_requests_count ctl (Z.of_nat cpus).
Proof. unfold concurrent_requests_count. destruct (prefetch_checkbox ctl); lia. Qed.

Lemma sequenced_request_idle_fields (now : Q) (w : World) :
  frames_left_exhausted (toolbar w) = false ->
  same_idle_fields (toolbar w) (toolbar (snd (_request_next_frame_sequenced now w))).
Proof.
  intros E. rewrite (sequenced_request now w E).
  destruct (pop (buffer (toolbar w))) as [[f buf]|e]; [|repeat split].
  cbv zeta. destruct (next_frame_of _) as [nf|e]; [|repeat split].
  destruct (__le__ nf _); repeat split.
Qed.

Lemma unsequenced_request_idle_fields (future : option nat) (now : Q) (w : World) :
  frames_left_exhausted (toolbar w) = false ->
  same_idle_fields (toolbar w)
    (toolbar (snd (_request_next_frame_unsequenced future now w))).
Proof.
  intros E. rewrite (unsequenced_request future now w E).
  destruct (running (toolbar w)); [|repeat split].
  destruct (next_frame_of _) as [nf|e]; repeat split.
Qed.

Lemma idle_consistent_same (t t' : BenchmarkToolbar) :
  same_idle_fields t t' -> idle_consistent t -> idle_consistent t'.
Proof. unfold same_idle_fields, idle_consistent. intros (-> & -> & ->). auto. Qed.

Lemma sequenced_idle_consistent (now : Q) (w : World) :
  idle_consistent (toolbar w) ->
  idle_consistent (toolbar (snd (_request_next_frame_sequenced now w))).
Proof.
  intros Hw. destruct (frames_left_exhausted (toolbar w)) eqn:E.
  - rewrite (sequenced_exhausted now w E).
    destruct (abort_same now w) as (t' & -> & _ & Ht'). exact Ht'.
  - eapply idle_consistent_same; [now apply sequenced_request_idle_fields | exact Hw].
Qed.

Lemma unsequenced_idle_consistent (future : option nat) (now : Q) (w : World) :
  idle_consistent (toolbar w) ->
  idle_consistent (toolbar (snd (_request_next_frame_unsequenced future now w))).
Proof.
  intros Hw. destruct (frames_left_exhausted (toolbar w)) eqn:E.
  - rewrite (unsequenced_exhausted future now w E).
    destruct (abort_same now w) as (t' & -> & _ & Ht'). exact Ht'.
  - eapply idle_consistent_same; [now apply unsequenced_request_idle_fields | exact Hw].
Qed.

(** [run] leaves the toolbar running, whatever the controls hold, as long
    as the number of concurrent requests is not negative. *)
Lemma run_request_keeps_running (now : Q) (n : nat) (offset : Z) (w : World) :
  running (toolbar w) = true /\
  (unsequenced (toolbar w) = true -> Z.of_nat (S n) <= value (frames_left (toolbar w))) ->
  let w' := snd (run_request now offset w) in
  running (toolbar w') = true /\
  (unsequenced (toolbar w') = true -> Z.of_nat n <= value (frames_left (toolbar w'))).
Proof.
  intros [Hrun Hleft]. cbv zeta. destruct (unsequenced (toolbar w)) eqn:Hu.
  - specialize (Hleft eq_refl).
    rewrite (run_request_unsequenced now offset w Hu).
    assert (frames_left_exhausted (toolbar w) = false) as E.
    { apply le_false_value. cbn. lia. }
    rewrite (unsequenced_request None now w E). rewrite Hrun.
    destruct (next_frame_of (toolbar w)); cbn [snd toolbar].
    + split; [exact Hrun|]. intros _. cbn. cbn in Hleft. lia.
    + split; [exact Hrun|]. intros _. lia.
  - rewrite (run_request_sequenced now offset w Hu).
    destruct (Frame___add__ _ _); cbn [snd toolbar].
    + split; [exact Hrun|]. cbn. congruence.
    + split; [exact Hrun|]. congruence.
Qed.

Lemma run_keeps_running (ctl : Controls) (cpus : Z) (now : Q) (w : World) :
  0 <= concurrent_requests_count ctl cpus ->
  running (toolbar (snd (run ctl cpus now w))) = true.
Proof.
  intros Hc. rewrite (run_spec ctl cpus now w Hc).
  set (w1 := mk_World (run_started ctl cpus now (toolbar w)) (source w)).
  set (xs := map Z.of_nat (seq 0 (initial_requests ctl cpus))).
  pose (P := fun (n : nat) (w : World) =>
               running (toolbar w) = true /\
               (n <> 0%nat -> unsequenced (toolbar w) = true ->
                Z.of_nat n <= value (frames_left (toolbar w)))).
  assert (P 0%nat (snd (for_each xs (run_request now) w1))) as [Hrun _].
  { apply for_each_invariant.
    - intros n w' [Hr Hl]. split; [exact Hr|]. intros Hn Hu.
      specialize (Hl ltac:(lia) Hu). lia.
    - intros n x w' [Hr Hl].
      destruct (run_request_keeps_running now n x w') as [Hr' Hl'].
      { split; [exact Hr|]. intros Hu. apply Hl; [lia | exact Hu]. }
      split; [exact Hr'|]. intros _. exact Hl'.
    - split; [reflexivity|]. intros Hn _.
      unfold xs in *. rewrite length_map, length_seq in *.
      unfold initial_requests in *. cbn [run_started toolbar frames_left value
        FrameInterval_wrapper FrameInterval_value w1]. lia. }
  destruct (for_each xs (run_request now) w1) as [[[]|e] w']; cbn in *; exact Hrun.
Qed.

(** ** The idle states *)

Lemma handle_idle_consistent (i : input) (w : World) :
  idle_consistent (toolbar w) -> idle_consistent (toolbar (snd (handle i w))).
Proof.
  intros Hw. destruct i as [ctl cpus now | now | f now | now].
  - rewrite handle_press. destruct (run_abort_button (toolbar w)).
    + destruct (abort_same now (mk_World (pressed false (toolbar w)) (source w)))
        as (t' & -> & _ & Ht'). exact Ht'.
    + intros E. rewrite run_keeps_running in E; [discriminate|].
      apply concurrent_requests_count_nonneg.
  - now apply sequenced_idle_consistent.
  - cbn [handle]. destruct (has_callback (source w) f).
    + now apply unsequenced_idle_consistent.
    + exact Hw.
  - cbn [handle]. destruct (update_info_same now w) as (t' & -> & _ & Hr & Hu & Hb).
    cbn [snd toolbar]. unfold idle_consistent. rewrite Hr, Hu, Hb. exact Hw.
Qed.

Lemma reachable_idle_consistent (w : World) :
  reachable w -> idle_consistent (toolbar w).
Proof.
  induction 1 as [|i w Hw IH Hen].
  - intros _. split; reflexivity.
  - now apply handle_idle_consistent.
Qed.

Lemma reachable_deliver (i : input) (w : World) :
  reachable w -> reachable (deliver i w).
Proof.
  intros Hw. unfold deliver. destruct (enabled i w) eqn:E; [|exact Hw].
  now apply reachable_step.
Qed.

Lemma reachable_deliver_all (inputs : list input) (w : World) :
  reachable w -> reachable (deliver_all inputs w).
Proof.
  revert w. induction inputs as [|i inputs IH]; intros w Hw; cbn.
  - exact Hw.
  - apply IH. now apply reachable_deliver.
Qed.

(** C9: [abort(); abort()] does what a single [abort()] does, and on every
    reachable state of the toolbar in which no run is going on [abort()]
    returns normally and leaves the state as it is. *)
Theorem abort_idempotent (now now' : Q) (w : World) :
  bind (abort now) (fun _ => abort now') w = abort now w /\
  (reachable w -> running (toolbar w) = false -> abort now w = (Ok tt, w)).
Proof.
  split.
  - unfold bind. rewrite (abort_spec now w).
    destruct (abort_result now (toolbar w)) as [t'|e] eqn:E; [|reflexivity].
    rewrite abort_spec. cbn [toolbar source].
    now rewrite (abort_result_stable now now' _ _ E).
  - intros Hreach Hrun. destruct (reachable_idle_consistent w Hreach Hrun) as [Hu Hb].
    rewrite abort_spec. unfold abort_result. rewrite Hrun.
    rewrite after_abort_fixed by assumption. now destruct w.
Qed.

Lemma abort_idempotent_witness :
  let w := deliver_all [Press (sample_controls 0 9 true) 4 1; Done 0 2; Press (sample_controls 0 9 true) 4 3] world_init in
  running (toolbar w) = false /\ abort 5 w = (Ok tt, w).
Proof.
  intros w. split; [reflexivity|].
  apply (abort_idempotent 5 5 w).
  - apply reachable_deliver_all, reachable_init.
  - reflexivity.
Defined.

(** ** Sequenced mode: the requests in flight are in the buffer *)

Lemma pop_spec (d : deque) :
  match pop d with
  | Ok (f, buf) => items d = items buf ++ [f] /\ maxlen buf = maxlen d
  | Raise _ => items d = []
  end.
Proof.
  unfold pop. destruct (rev (items d)) as [|x r] eqn:E.
  - rewrite <- (rev_involutive (items d)), E. reflexivity.
  - cbn [items maxlen]. split; [|reflexivity].
    rewrite <- (rev_involutive (items d)), E. reflexivity.
Qed.

Lemma has_callback_older (h : history) (index : Z) (cb : bool) (f : nat) :
  (f < List.length (requests h))%nat ->
  has_callback (Requested index cb :: h) f = has_callback h f.
Proof.
  intros Hf. unfold has_callback. cbn [requests].
  now rewrite nth_error_app1.
Qed.

Lemma has_callback_newest (h : history) (index : Z) (cb : bool) :
  has_callback (Requested index cb :: h) (List.length (requests h)) = cb.
Proof.
  unfold has_callback. cbn [requests].
  rewrite nth_error_app2 by lia. now rewrite Nat.sub_diag.
Qed.

Lemma buffer_inv_in_flight (h0 : history) (c slack : nat) (buf : deque) (h : history) :
  buffer_inv h0 c slack buf h -> (in_flight h + slack <= c)%nat.
Proof.
  intros (_ & _ & _ & Hlen & Hpend & _).
  assert (List.length (pending h) <= List.length (items buf))%nat.
  { apply NoDup_incl_length; [apply pending_NoDup | exact Hpend]. }
  unfold in_flight. lia.
Qed.

Lemma buffer_inv_weaken (h0 : history) (c slack slack' : nat) (buf : deque) (h : history) :
  (slack' <= slack)%nat -> buffer_inv h0 c slack buf h -> buffer_inv h0 c slack' buf h.
Proof.
  intros Hs (He & Hb & Hm & Hlen & Hp & Hi). repeat split; try assumption; try lia;
    now apply Hi.
Qed.

Lemma buffer_inv_request (h0 : history) (c slack : nat) (buf : deque) (h : history)
      (index : Z) :
  buffer_inv h0 c (S slack) buf h ->
  buffer_inv h0 c slack (appendleft (List.length (requests h)) buf)
    (Requested index false :: h).
Proof.
  intros Hinv. pose proof (buffer_inv_in_flight _ _ _ _ _ Hinv) as Hfl.
  destruct Hinv as (He & Hb & Hm & Hlen & Hp & Hi).
  assert (items (appendleft (List.length (requests h)) buf)
          = List.length (requests h) :: items buf) as Hitems.
  { unfold appendleft. rewrite Hm. cbn [items].
    apply firstn_all2. cbn [List.length]. lia. }
  unfold buffer_inv. rewrite Hitems. cbn [maxlen appendleft List.length].
  split; [now apply extends_cons|].
  split; [apply run_bounded_cons; try assumption; rewrite in_flight_requested; lia|].
  split; [exact Hm|]. split; [lia|]. split.
  - intros f [<- | Hf]; [now left | right; now apply Hp].
  - intros f [<- | Hf].
    + split; [cbn [requests]; rewrite length_app; cbn; lia | apply has_callback_newest].
    + destruct (Hi f Hf) as [Hlt Hcb]. split.
      * cbn [requests]. rewrite length_app. lia.
      * now rewrite has_callback_older.
Qed.

Lemma buffer_inv_resolved (h0 : history) (c slack : nat) (buf : deque) (h : history)
      (f : nat) :
  buffer_inv h0 c slack buf h -> buffer_inv h0 c slack buf (Resolved f :: h).
Proof.
  intros (He & Hb & Hm & Hlen & Hp & Hi).
  split; [now apply extends_cons|].
  split.
  { apply run_bounded_cons; try assumption.
    pose proof (in_flight_resolved h f). pose proof (run_bounded_now _ _ _ He Hb). lia. }
  split; [exact Hm|]. split; [exact Hlen|]. split.
  - intros g Hg. cbn [pending] in Hg. apply in_remove in Hg. now apply Hp.
  - intros g Hg. exact (Hi g Hg).
Qed.

Lemma buffer_inv_pop (h0 : history) (c slack : nat) (buf buf' : deque) (h : history)
      (f : nat) :
  buffer_inv h0 c slack buf h -> pop buf = Ok (f, buf') ->
  buffer_inv h0 c (S slack) buf'
    (if is_pending h f then Resolved f :: h else h).
Proof.
  intros Hinv Hpop. pose proof (pop_spec buf) as Hspec. rewrite Hpop in Hspec.
  destruct Hspec as [Hitems Hmax].
  assert (buffer_inv h0 c slack buf (if is_pending h f then Resolved f :: h else h))
    as (He & Hb & Hm & Hlen & Hp & Hi).
  { destruct (is_pending h f); [now apply buffer_inv_resolved | exact Hinv]. }
  split; [exact He|]. split; [exact Hb|]. split; [congruence|].
  rewrite Hitems, length_app in Hlen. cbn in Hlen.
  split; [lia|]. split.
  - intros g Hg. specialize (Hp g Hg). rewrite Hitems in Hp.
    apply in_app_or in Hp. destruct Hp as [Hp | [<- | []]]; [exact Hp|].
    exfalso. destruct (is_pending h f) eqn:E.
    + cbn [pending] in Hg. now apply remove_In in Hg.
    + apply is_pending_In in Hg. congruence.
  - intros g Hg. apply Hi. rewrite Hitems. apply in_or_app. now left.
Qed.

Lemma sequenced_inv_same (h0 : history) (c slack : nat) (w : World)
      (t' : BenchmarkToolbar) :
  same_run_state (toolbar w) t' ->
  sequenced_inv h0 c slack w -> sequenced_inv h0 c slack (mk_World t' (source w)).
Proof.
  intros (Hu & Hb & _) [Hun Hinv]. unfold sequenced_inv. cbn [toolbar source].
  rewrite Hu, Hb. now split.
Qed.

Lemma sequenced_tick_inv (h0 : history) (c : nat) (now : Q) (w : World) :
  sequenced_inv h0 c 0 w ->
  sequenced_inv h0 c 0 (snd (_request_next_frame_sequenced now w)).
Proof.
  intros Hinv. destruct (frames_left_exhausted (toolbar w)) eqn:E.
  - rewrite (sequenced_exhausted now w E).
    destruct (abort_same now w) as (t' & -> & Hsame & _).
    now apply sequenced_inv_same.
  - rewrite (sequenced_request now w E). destruct Hinv as [Hun Hinv].
    destruct (pop (buffer (toolbar w))) as [[f buf]|e] eqn:Hpop; [|now split].
    pose proof (buffer_inv_pop _ _ _ _ _ _ _ Hinv Hpop) as Hpopped.
    cbv zeta. destruct (next_frame_of _) as [nf|e]; cbn [snd].
    + destruct (__le__ nf _); cbn [snd]; (split; [exact Hun|]); cbn [toolbar source].
      * now apply buffer_inv_request.
      * eapply buffer_inv_weaken; [|exact Hpopped]. lia.
    + split; [exact Hun|]. cbn [toolbar source].
      eapply buffer_inv_weaken; [|exact Hpopped]. lia.
Qed.

Lemma sequenced_loop_inv (h0 : history) (c slack : nat) (now : Q) (offset : Z)
      (w : World) :
  sequenced_inv h0 c (S slack) w ->
  sequenced_inv h0 c slack (snd (run_request now offset w)).
Proof.
  intros [Hun Hinv]. rewrite (run_request_sequenced now offset w Hun).
  destruct (Frame___add__ _ _) as [fr|e]; cbn [snd].
  - split; [exact Hun|]. cbn [toolbar source]. now apply buffer_inv_request.
  - split; [exact Hun|]. eapply buffer_inv_weaken; [|exact Hinv]. lia.
Qed.

(** ** Unsequenced mode: a completion frees the slot its callback fills *)

Lemma unsequenced_inv_same (h0 : history) (c slack : nat) (w : World)
      (t' : BenchmarkToolbar) :
  same_run_state (toolbar w) t' ->
  unsequenced_inv h0 c slack w -> unsequenced_inv h0 c slack (mk_World t' (source w)).
Proof.
  intros (_ & _ & _ & _ & _ & _ & _ & Ht) (He & Hb & Htimer & Hfl).
  unfold unsequenced_inv. cbn [toolbar source]. rewrite Ht. auto.
Qed.

Lemma unsequenced_inv_weaken (h0 : history) (c slack slack' : nat) (w : World) :
  (slack' <= slack)%nat ->
  unsequenced_inv h0 c slack w -> unsequenced_inv h0 c slack' w.
Proof.
  intros Hs (He & Hb & Htimer & Hfl). repeat split; try assumption. lia.
Qed.

Lemma unsequenced_inv_events (h0 : history) (c slack : nat) (t t' : BenchmarkToolbar)
      (h : history) :
  sequenced_timer t' = sequenced_timer t ->
  unsequenced_inv h0 c slack (mk_World t h) ->
  forall future : option nat,
    unsequenced_inv h0 c slack
      (mk_World t'
         match future with
         | Some f => if is_pending h f then Resolved f :: h else h
         | None => h
         end).
Proof.
  intros Ht (He & Hb & Htimer & Hfl) future. cbn [toolbar source] in *.
  assert (unsequenced_inv h0 c slack (mk_World t' h)) as Hsame.
  { repeat split; try assumption. cbn [toolbar]. congruence. }
  destruct future as [f|]; [|exact Hsame].
  destruct (is_pending h f); [|exact Hsame].
  pose proof (in_flight_resolved h f) as Hle.
  split; [now apply extends_cons|]. split.
  - apply run_bounded_cons; try assumption. lia.
  - split; [cbn [toolbar]; congruence|]. cbn [source]. lia.
Qed.

Lemma unsequenced_handler_inv (h0 : history) (c slack : nat) (future : option nat)
      (now : Q) (w : World) :
  unsequenced_inv h0 c (S slack) w ->
  unsequenced_inv h0 c slack (snd (_request_next_frame_unsequenced future now w)).
Proof.
  intros Hinv. destruct (frames_left_exhausted (toolbar w)) eqn:E.
  - rewrite (unsequenced_exhausted future now w E).
    destruct (abort_same now w) as (t' & -> & Hsame & _).
    apply unsequenced_inv_same; [exact Hsame|].
    eapply unsequenced_inv_weaken; [|exact Hinv]. lia.
  - rewrite (unsequenced_request future now w E). destruct w as [t h].
    cbn [toolbar source] in *. cbv zeta.
    destruct (running t).
    + destruct (next_frame_of t) as [nf|e]; cbn [snd].
      * apply unsequenced_inv_events with (t := t); [reflexivity|].
        destruct Hinv as (He & Hb & Htimer & Hfl). cbn [toolbar source] in *.
        split; [now apply extends_cons|]. split.
        -- apply run_bounded_cons; try assumption. rewrite in_flight_requested. lia.
        -- split; [exact Htimer|]. cbn [source]. rewrite in_flight_requested. lia.
      * eapply unsequenced_inv_weaken; [|exact Hinv]. lia.
    + cbn [snd]. apply unsequenced_inv_events with (t := t); [reflexivity|].
      eapply unsequenced_inv_weaken; [|exact Hinv]. lia.
Qed.

Lemma unsequenced_handler_mode (future : option nat) (now : Q) (w : World) :
  unsequenced (toolbar (snd (_request_next_frame_unsequenced future now w)))
  = unsequenced (toolbar w).
Proof.
  destruct (frames_left_exhausted (toolbar w)) eqn:E.
  - rewrite (unsequenced_exhausted future now w E).
    destruct (abort_same now w) as (t' & -> & (Hu & _) & _). exact Hu.
  - rewrite (unsequenced_request future now w E). cbv zeta.
    destruct (running (toolbar w)); [|reflexivity].
    destruct (next_frame_of (toolbar w)); reflexivity.
Qed.

(** ** Every world of a run *)

Lemma handle_sequenced_inv (h0 : history) (c : nat) (i : input) (w : World) :
  enabled i w = true -> keeps_run i w = true ->
  sequenced_inv h0 c 0 w -> sequenced_inv h0 c 0 (snd (handle i w)).
Proof.
  intros Hen Hkeep Hs. destruct i as [ctl cpus now | now | f now | now].
  - cbn [keeps_run] in Hkeep. rewrite handle_press, Hkeep.
    destruct (abort_same now (mk_World (pressed false (toolbar w)) (source w)))
      as (t' & -> & Hsame & _). cbn [toolbar source] in Hsame.
    apply sequenced_inv_same; [|exact Hs].
    eapply same_run_state_trans; [|exact Hsame]. repeat split.
  - cbn [handle]. now apply sequenced_tick_inv.
  - cbn [enabled] in Hen. apply is_pending_In in Hen. cbn [handle].
    destruct Hs as [Hun Hb]. destruct Hb as (He & Hrb & Hm & Hlen & Hp & Hi).
    destruct (Hi f (Hp f Hen)) as [_ Hcb]. rewrite Hcb. cbn [snd].
    split; [exact Hun|]. cbn [toolbar source].
    apply buffer_inv_resolved. unfold buffer_inv. split_ands; assumption.
  - cbn [handle]. destruct (update_info_same now w) as (t' & -> & Hsame & _).
    now apply sequenced_inv_same.
Qed.




Lemma initial_requests_le (ctl : Controls) (cpus : Z) :
  (initial_requests ctl cpus <= Z.to_nat (concurrent_requests_count ctl cpus))%nat.
Proof. unfold initial_requests. lia. Qed.

Lemma run_establishes_mode_inv (ctl : Controls) (cpus : Z) (now : Q) (w : World) :
  0 <= concurrent_requests_count ctl cpus ->
  pending (source w) = [] ->
  (unsequenced_checkbox ctl = true -> sequenced_timer (toolbar w) = false) ->
  let c := Z.to_nat (concurrent_requests_count ctl cpus) in
  (unsequenced_checkbox ctl = false /\
   sequenced_inv (source w) c 0 (snd (run ctl cpus now w))) \/
  (unsequenced_checkbox ctl = true /\
   unsequenced_inv (source w) c 0 (snd (run ctl cpus now w))).
Proof.
  intros Hc Hquiet Htimer c. rewrite (run_spec ctl cpus now w Hc).
  set (h0 := source w).
  set (w1 := mk_World (run_started ctl cpus now (toolbar w)) h0).
  set (xs := map Z.of_nat (seq 0 (initial_requests ctl cpus))).
  pose (P := fun (n : nat) (w' : World) =>
               (unsequenced_checkbox ctl = false /\ sequenced_inv h0 c n w') \/
               (unsequenced_checkbox ctl = true /\
                unsequenced (toolbar w') = true /\ unsequenced_inv h0 c n w')).
  assert (P 0%nat (snd (for_each xs (run_request now) w1))) as Hloop.
  { apply for_each_invariant.
    - intros n w' [[Hmode [Hun Hs]] | [Hmode [Hun Hu]]]; [left | right];
        (split; [exact Hmode|]); (split; [exact Hun|]).
      + eapply buffer_inv_weaken; [|exact Hs]. lia.
      + eapply unsequenced_inv_weaken; [|exact Hu]. lia.
    - intros n x w' [[Hmode Hs] | [Hmode [Hun Hu]]]; [left | right];
        (split; [exact Hmode|]).
      + now apply sequenced_loop_inv.
      + rewrite (run_request_unsequenced now x w' Hun). split.
        * now rewrite unsequenced_handler_mode.
        * now apply unsequenced_handler_inv.
    - unfold xs. rewrite length_map, length_seq.
      pose proof (initial_requests_le ctl cpus) as Hle. fold c in Hle.
      assert (in_flight h0 = 0%nat) as Hzero by (unfold in_flight, h0; now rewrite Hquiet).
      unfold P, sequenced_inv, unsequenced_inv, buffer_inv, w1, run_started.
      cbn [toolbar source unsequenced buffer sequenced_timer].
      destruct (unsequenced_checkbox ctl) eqn:Hmode; [right | left].
      + split; [reflexivity|]. split; [reflexivity|]. split; [apply extends_refl|].
        split; [apply run_bounded_start; lia|].
        split; [now apply Htimer | lia].
      + split; [reflexivity|]. split; [reflexivity|]. split; [apply extends_refl|].
        split; [apply run_bounded_start; lia|].
        split; [reflexivity|]. cbn [items List.length]. split; [lia|].
        split; [unfold h0; rewrite Hquiet; intros f []|intros f []]. }
  destruct (for_each xs (run_request now) w1) as [[[]|e] [t' h']]; cbn [snd] in *.
  - destruct Hloop as [[Hmode Hs] | [Hmode [_ Hu]]]; [left | right];
      (split; [exact Hmode|]).
    + apply (sequenced_inv_same h0 c 0 (mk_World t' h')); [repeat split | exact Hs].
    + apply (unsequenced_inv_same h0 c 0 (mk_World t' h')); [repeat split | exact Hu].
  - destruct Hloop as [[Hmode Hs] | [Hmode [_ Hu]]]; [left | right]; now split.
Qed.



(** ** Closed forms for a run over a valid range *)

Lemma frame_run_S (first : Z) (n : nat) :
  frame_run first (S n) = frame_run first n ++ [first + Z.of_nat n].
Proof. unfold frame_run. rewrite seq_S, map_app. reflexivity. Qed.

Lemma frame_run_length (first : Z) (n : nat) : List.length (frame_run first n) = n.
Proof. unfold frame_run. now rewrite length_map, length_seq. Qed.

Lemma frame_run_nth (first : Z) (n i : nat) :
  (i < n)%nat -> nth_error (frame_run first n) i = Some (first + Z.of_nat i).
Proof.
  intros Hi. unfold frame_run. rewrite nth_error_map.
  rewrite nth_error_nth' with (d := 0%nat) by now rewrite length_seq.
  rewrite seq_nth by assumption. reflexivity.
Qed.

Lemma frame_run_nth_inv (first : Z) (n i : nat) (k : Z) :
  nth_error (frame_run first n) i = Some k -> (i < n)%nat /\ k = first + Z.of_nat i.
Proof.
  intros E. assert (i < n)%nat as Hi.
  { rewrite <- (frame_run_length first n). apply nth_error_Some. congruence. }
  split; [exact Hi|]. rewrite frame_run_nth in E by assumption. congruence.
Qed.

Lemma issued_length (h : history) : List.length (issued h) = List.length (requests h).
Proof. unfold issued. apply length_map. Qed.

Lemma issued_requested (h : history) (k : Z) (cb : bool) :
  issued (Requested k cb :: h) = issued h ++ [k].
Proof. unfold issued. cbn [requests]. now rewrite map_app. Qed.

Lemma issued_resolved (h : history) (f : nat) : issued (Resolved f :: h) = issued h.
Proof. reflexivity. Qed.

Lemma next_frame_of_ok (t : BenchmarkToolbar) :
  0 <= value (end_frame t) + 1 ->
  value (frames_left t) <= value (end_frame t) + 1 ->
  next_frame_of t = Ok (mk_Frame (value (end_frame t) + 1 - value (frames_left t))).
Proof.
  intros He Hl. unfold next_frame_of, Frame___add__, Frame_sub_FrameInterval.
  cbn [FrameInterval_of_int value FrameInterval_wrapper FrameInterval_value].
  rewrite Frame_of_int_ok by assumption. cbn [result_bind].
  apply Frame_of_int_ok. cbn. lia.
Qed.

Lemma ordered_since_start (h0 : history) (c : nat) (first : Z) :
  ordered_since h0 c first h0.
Proof.
  intros l1 l2 k cb E. exfalso.
  assert (List.length h0 = List.length (l1 ++ Requested k cb :: l2 ++ h0)) as Hlen
    by now rewrite <- E.
  rewrite length_app in Hlen. cbn in Hlen. rewrite length_app in Hlen. lia.
Qed.

Lemma ordered_since_resolved (h0 h : history) (c : nat) (first : Z) (f : nat) :
  extends h0 h -> ordered_since h0 c first h -> ordered_since h0 c first (Resolved f :: h).
Proof.
  intros [l ->] Hord l1 l2 k cb E.
  assert (Resolved f :: l = l1 ++ Requested k cb :: l2) as E'.
  { apply app_inv_tail with (l := h0). rewrite <- app_assoc. exact E. }
  destruct l1 as [|e1 l1]; cbn in E'; [discriminate|].
  injection E' as E1 E2. subst e1 l. apply (Hord l1 l2 k cb).
  rewrite <- app_assoc. reflexivity.
Qed.

Lemma ordered_since_requested (h0 h : history) (c : nat) (first k : Z) (cb : bool) :
  extends h0 h -> ordered_since h0 c first h ->
  (first <= k - Z.of_nat c ->
   (exists f : nat,
       (List.length (requests h0) <= f)%nat /\
       nth_error (issued h) f = Some (k - Z.of_nat c)) /\
   (forall f : nat,
       nth_error (issued h) f = Some (k - Z.of_nat c) -> ~ In f (pending h))) ->
  ordered_since h0 c first (Requested k cb :: h).
Proof.
  intros [l ->] Hord Hnew l1 l2 k' cb' E.
  assert (Requested k cb :: l = l1 ++ Requested k' cb' :: l2) as E'.
  { apply app_inv_tail with (l := h0). rewrite <- app_assoc. exact E. }
  destruct l1 as [|e1 l1]; cbn in E'.
  - injection E' as E1 E2 E3. subst k' cb' l2. exact Hnew.
  - injection E' as E1 E2. subst e1 l. apply (Hord l1 l2 k' cb').
    rewrite <- app_assoc. reflexivity.
Qed.

Lemma pop_snoc (rest : list nat) (f : nat) (m : option nat) :
  pop (mk_deque (rest ++ [f]) m) = Ok (f, mk_deque rest m).
Proof.
  unfold pop. cbn [items maxlen]. rewrite rev_app_distr. cbn [rev app].
  now rewrite rev_involutive.
Qed.

Lemma requests_waited (h : history) (f : nat) :
  requests (if is_pending h f then Resolved f :: h else h) = requests h.
Proof. now destruct (is_pending h f). Qed.

(** A timer tick of a well-formed sequenced run: wait for the oldest future,
    request frame [end + 1 - frames_left], count one frame down. *)
Lemma sequenced_request_ok (now : Q) (t : BenchmarkToolbar) (h : history)
      (rest : list nat) (f c : nat) :
  0 < value (frames_left t) ->
  value (frames_left t) <= value (end_frame t) + 1 ->
  buffer t = mk_deque (rest ++ [f]) (Some c) ->
  (List.length rest < c)%nat ->
  _request_next_frame_sequenced now (mk_World t h) =
    (Ok tt,
     mk_World
       (decremented
          (set_buffer (mk_deque (List.length (requests h) :: rest) (Some c)) t))
       (Requested (value (end_frame t) + 1 - value (frames_left t)) false
          :: (if is_pending h f then Resolved f :: h else h))).
Proof.
  intros Hpos Hle Hbuf Hlen.
  assert (frames_left_exhausted t = false) as E by (apply le_false_value; cbn; lia).
  rewrite (sequenced_request now (mk_World t h) E). cbn [toolbar source].
  rewrite Hbuf, pop_snoc. cbv zeta.
  assert (next_frame_of (set_buffer (mk_deque rest (Some c)) t)
          = Ok (mk_Frame (value (end_frame t) + 1 - value (frames_left t)))) as ->.
  { apply (next_frame_of_ok (set_buffer (mk_deque rest (Some c)) t)); cbn; cbn in Hle; lia. }
  assert (__le__ (mk_Frame (value (end_frame t) + 1 - value (frames_left t)))
            (end_frame (set_buffer (mk_deque rest (Some c)) t)) = true) as ->.
  { apply le_zero_value. cbn. cbn in Hpos. lia. }
  rewrite requests_waited.
  assert (appendleft (List.length (requests h)) (mk_deque rest (Some c))
          = mk_deque (List.length (requests h) :: rest) (Some c)) as ->.
  { unfold appendleft. cbn [maxlen items]. f_equal.
    apply firstn_all2. cbn [List.length]. lia. }
  destruct t as [r u b st sf ef tf fl stm utm btn ui lbl]. reflexivity.
Qed.

Lemma seq_rev_S (start n : nat) :
  rev (seq start (S n)) = (start + n)%nat :: rev (seq start n).
Proof. rewrite seq_S, rev_app_distr. reflexivity. Qed.

Lemma seq_rev_head (start n : nat) :
  rev (seq start (S n)) = rev (seq (S start) n) ++ [start].
Proof. cbn [seq rev]. reflexivity. Qed.

Lemma pending_waited (h : history) (f g : nat) :
  In g (pending (if is_pending h f then Resolved f :: h else h)) ->
  In g (pending h) /\ g <> f.
Proof.
  destruct (is_pending h f) eqn:E; intros Hg.
  - cbn [pending] in Hg. apply in_remove in Hg. tauto.
  - split; [exact Hg|]. intros ->. apply is_pending_In in Hg. congruence.
Qed.

Lemma extends_waited (h0 h : history) (f : nat) :
  extends h0 h -> extends h0 (if is_pending h f then Resolved f :: h else h).
Proof. intros He. destruct (is_pending h f); [now apply extends_cons | exact He]. Qed.

Lemma ordered_since_waited (h0 h : history) (c : nat) (first : Z) (f : nat) :
  extends h0 h -> ordered_since h0 c first h ->
  ordered_since h0 c first (if is_pending h f then Resolved f :: h else h).
Proof.
  intros He Ho. destruct (is_pending h f); [now apply ordered_since_resolved | exact Ho].
Qed.

Lemma issued_waited (h : history) (f : nat) :
  issued (if is_pending h f then Resolved f :: h else h) = issued h.
Proof. now destruct (is_pending h f). Qed.

(** Where a frame number sits among the requests of a sequenced run. *)
Lemma issued_closed_nth (l0 : list Z) (first : Z) (a j f : nat) (k : Z) :
  nth_error (l0 ++ frame_run first a ++ frame_run first j) f = Some k ->
  (List.length l0 <= f)%nat ->
  ((f - List.length l0 < a)%nat /\ k = first + Z.of_nat (f - List.length l0)) \/
  ((a <= f - List.length l0)%nat /\ k = first + Z.of_nat (f - List.length l0 - a)).
Proof.
  intros E Hf. rewrite nth_error_app2 in E by assumption.
  destruct (Nat.lt_ge_cases (f - List.length l0) a) as [Hlt | Hge].
  - left. rewrite nth_error_app1 in E by now rewrite frame_run_length.
    apply frame_run_nth_inv in E. tauto.
  - right. rewrite nth_error_app2 in E by now rewrite frame_run_length.
    rewrite frame_run_length in E. apply frame_run_nth_inv in E. tauto.
Qed.

Lemma sequenced_closed_same (h0 : history) (first last total : Z) (c a j : nat) (w : World)
      (t' : BenchmarkToolbar) :
  same_run_state (toolbar w) t' ->
  sequenced_closed h0 first last total c a j w ->
  sequenced_closed h0 first last total c a j (mk_World t' (source w)).
Proof.
  intros (Hu & Hb & _ & Hs & He & _ & Hl & _) (C1 & C2 & C3 & C4 & C5 & C6 & C7 & C8 & C9).
  unfold sequenced_closed. cbn [toolbar source]. rewrite Hu, Hb, Hs, He, Hl.
  split_ands; assumption.
Qed.

Lemma sequenced_closed_resolved (h0 : history) (first last total : Z) (c a j : nat)
      (t : BenchmarkToolbar) (h : history) (f : nat) :
  sequenced_closed h0 first last total c a j (mk_World t h) ->
  sequenced_closed h0 first last total c a j (mk_World t (Resolved f :: h)).
Proof.
  intros (C1 & C2 & C3 & C4 & C5 & C6 & C7 & C8 & C9). cbn [toolbar source] in *.
  unfold sequenced_closed. cbn [toolbar source]. rewrite issued_resolved.
  split_ands; try assumption.
  - intros g Hg. cbn [pending] in Hg. apply in_remove in Hg. now apply C7.
  - now apply extends_cons.
  - now apply ordered_since_resolved.
Qed.

(** One request of the loop of [run]. *)
Lemma sequenced_closed_loop (h0 : history) (first last total : Z) (c a : nat) (now : Q)
      (w : World) :
  0 <= first -> (a < c)%nat ->
  sequenced_closed h0 first last total c a 0 w ->
  exists w' : World,
    run_request now (Z.of_nat a) w = (Ok tt, w') /\
    sequenced_closed h0 first last total c (S a) 0 w'.
Proof.
  intros Hfirst Hac (C1 & C2 & C3 & C4 & C5 & C6 & C7 & C8 & C9).
  destruct w as [t h]. cbn [toolbar source] in *.
  rewrite (run_request_sequenced now (Z.of_nat a) (mk_World t h) C1).
  cbn [toolbar source]. rewrite C2. unfold Frame___add__.
  cbn [value Frame_wrapper Frame_value FrameInterval_of_int FrameInterval_wrapper
       FrameInterval_value].
  rewrite Frame_of_int_ok by lia. eexists. split; [reflexivity|].
  assert (List.length (requests h) = (List.length (requests h0) + a)%nat) as Hlen.
  { rewrite <- issued_length, C6, !length_app, !frame_run_length, issued_length.
    cbn. lia. }
  unfold sequenced_closed. cbn [toolbar source].
  split; [exact C1|]. split; [exact C2|]. split; [exact C3|]. split; [exact C4|].
  split.
  { cbn [buffer set_buffer]. rewrite C5. unfold appendleft. cbn [maxlen items].
    f_equal. rewrite firstn_all2.
    - rewrite Hlen, Nat.add_0_r. now rewrite seq_rev_S.
    - cbn [List.length]. rewrite length_rev, length_seq. lia. }
  split.
  { rewrite issued_requested, C6, frame_run_S. cbn [frame_run seq map].
    rewrite !app_nil_r. now rewrite <- app_assoc. }
  split.
  { intros f [<- | Hf]; [lia | now apply C7]. }
  split; [now apply extends_cons|].
  apply ordered_since_requested; try assumption.
  intros Hk. exfalso. cbn in Hk. lia.
Qed.

Lemma sequenced_closed_run_loop (h0 : history) (first last total : Z) (c : nat) (now : Q)
      (n : nat) :
  0 <= first ->
  forall (a : nat) (w : World),
    (a + n <= c)%nat ->
    sequenced_closed h0 first last total c a 0 w ->
    exists w' : World,
      for_each (map Z.of_nat (seq a n)) (run_request now) w = (Ok tt, w') /\
      sequenced_closed h0 first last total c (a + n) 0 w'.
Proof.
  intros Hfirst. induction n as [|n IH]; intros a w Hle Hw.
  - exists w. rewrite Nat.add_0_r. now split.
  - cbn [seq map for_each].
    destruct (sequenced_closed_loop h0 first last total c a now w Hfirst ltac:(lia) Hw)
      as (w1 & E1 & Hw1).
    destruct (IH (S a) w1 ltac:(lia) Hw1) as (w' & E' & Hw').
    exists w'. split.
    + unfold bind. rewrite E1. exact E'.
    + now rewrite Nat.add_succ_r.
Qed.

(** One tick of the sequenced timer. *)
Lemma sequenced_closed_tick (h0 : history) (first last total : Z) (c a j : nat) (now : Q)
      (w : World) :
  0 <= first -> total = last - first + 1 -> (1 <= a <= c)%nat ->
  sequenced_closed h0 first last total c a j w ->
  sequenced_closed h0 first last total c a
    (if Z.of_nat j <? total then S j else j)
    (snd (_request_next_frame_sequenced now w)).
Proof.
  intros Hfirst Htotal [Ha Hac] Hw.
  destruct (Z.ltb_spec (Z.of_nat j) total) as [Hj | Hj].
  - pose proof Hw as (C1 & C2 & C3 & C4 & C5 & C6 & C7 & C8 & C9).
    destruct w as [t h]. cbn [toolbar source] in *.
    destruct a as [|a']; [lia|].
    set (off := List.length (requests h0)) in *.
    assert (List.length (requests h) = (off + S a' + j)%nat) as Hlen.
    { rewrite <- issued_length, C6, !length_app, !frame_run_length, issued_length.
      unfold off. lia. }
    assert (value (end_frame t) = last) as Hend by now rewrite C3.
    rewrite seq_rev_head in C5.
    rewrite (sequenced_request_ok now t h (rev (seq (S (off + j)) a')) (off + j) c)
      by (try assumption; try (rewrite length_rev, length_seq); lia).
    cbn [snd]. unfold sequenced_closed. cbn [toolbar source]. fold off.
    assert (value (end_frame t) + 1 - value (frames_left t) = first + Z.of_nat j) as Hk
      by lia.
    rewrite Hk.
    split; [exact C1|]. split; [exact C2|]. split; [exact C3|].
    split; [cbn; cbn in C4; lia|].
    split.
    { cbn [buffer decremented set_frames_left set_buffer]. f_equal.
      replace (off + S j)%nat with (S (off + j)) by lia.
      rewrite Hlen, seq_rev_S. f_equal. lia. }
    split.
    { rewrite issued_requested, issued_waited, C6, (frame_run_S first j).
      now rewrite <- !app_assoc. }
    split.
    { intros f [<- | Hf].
      - rewrite requests_waited, Hlen. lia.
      - apply pending_waited in Hf. destruct Hf as [Hf Hne].
        specialize (C7 f Hf). lia. }
    split; [apply extends_cons; now apply extends_waited|].
    apply ordered_since_requested;
      [now apply extends_waited | now apply ordered_since_waited |].
    intros Hc. rewrite issued_waited, C6. split.
    + exists (off + S a' + (j - c))%nat. split; [lia|].
      rewrite nth_error_app2 by (rewrite issued_length; fold off; lia).
      rewrite issued_length. fold off.
      rewrite nth_error_app2 by (rewrite frame_run_length; lia).
      rewrite frame_run_length.
      replace (off + S a' + (j - c) - off - S a')%nat with (j - c)%nat by lia.
      rewrite frame_run_nth by lia. f_equal. lia.
    + intros f Hnth Hpend. apply pending_waited in Hpend. destruct Hpend as [Hpend Hne].
      specialize (C7 f Hpend).
      apply issued_closed_nth in Hnth; [|rewrite issued_length; fold off; lia].
      rewrite issued_length in Hnth. fold off in Hnth. lia.
  - assert (frames_left_exhausted (toolbar w) = true) as E.
    { destruct Hw as (_ & _ & _ & C4 & _). apply le_zero_value. cbn. cbn in C4. lia. }
    rewrite (sequenced_exhausted now w E).
    destruct (abort_same now w) as (t' & -> & Hsame & _).
    now apply sequenced_closed_same.
Qed.

Lemma handle_sequenced_closed (h0 : history) (first last total : Z) (c a : nat) (i : input)
      (w : World) :
  0 <= first -> total = last - first + 1 -> (1 <= a <= c)%nat ->
  enabled i w = true -> keeps_run i w = true ->
  sequenced_inv h0 c 0 w ->
  (exists j, sequenced_closed h0 first last total c a j w) ->
  exists j, sequenced_closed h0 first last total c a j (snd (handle i w)).
Proof.
  intros Hfirst Htotal Ha Hen Hkeep Hs [j Hj]. destruct i as [ctl cpus now | now | f now | now].
  - cbn [keeps_run] in Hkeep. rewrite handle_press, Hkeep.
    destruct (abort_same now (mk_World (pressed false (toolbar w)) (source w)))
      as (t' & -> & Hsame & _). cbn [toolbar source] in Hsame.
    exists j. apply sequenced_closed_same; [|exact Hj].
    eapply same_run_state_trans; [|exact Hsame]. repeat split.
  - cbn [handle]. exists (if Z.of_nat j <? total then S j else j).
    apply sequenced_closed_tick; assumption.
  - cbn [enabled] in Hen. apply is_pending_In in Hen. cbn [handle].
    destruct Hs as [_ (_ & _ & _ & _ & Hp & Hi)].
    destruct (Hi f (Hp f Hen)) as [_ Hcb]. rewrite Hcb. cbn [snd].
    exists j. destruct w as [t h]. now apply sequenced_closed_resolved.
  - cbn [handle]. destruct (update_info_same now w) as (t' & -> & Hsame & _).
    exists j. now apply sequenced_closed_same.
Qed.

Lemma during_run_sequenced_closed (h0 : history) (first last total : Z) (c a : nat)
      (w1 w : World) :
  0 <= first -> total = last - first + 1 -> (1 <= a <= c)%nat ->
  sequenced_inv h0 c 0 w1 ->
  (exists j, sequenced_closed h0 first last total c a j w1) ->
  during_run w1 w ->
  sequenced_inv h0 c 0 w /\ exists j, sequenced_closed h0 first last total c a j w.
Proof.
  intros Hfirst Htotal Ha Hs1 Hc1. induction 1 as [|i w Hw [IHs IHc] Hen Hkeep].
  - now split.
  - split.
    + now apply handle_sequenced_inv.
    + now apply handle_sequenced_closed.
Qed.

(** The requests [run] makes in sequenced mode, whatever the end of the
    range and the total are. *)
Lemma run_sequenced_closed (ctl : Controls) (cpus : Z) (now : Q) (w : World) :
  0 <= value (start_frame_control ctl) -> unsequenced_checkbox ctl = false ->
  0 <= concurrent_requests_count ctl cpus ->
  pending (source w) = [] ->
  fst (run ctl cpus now w) = Ok tt /\
  sequenced_closed (source w)
    (value (start_frame_control ctl)) (value (end_frame_control ctl))
    (value (total_frames_control ctl))
    (Z.to_nat (concurrent_requests_count ctl cpus)) (initial_requests ctl cpus) 0
    (snd (run ctl cpus now w)).
Proof.
  intros Hfirst Hmode Hc Hquiet.
  rewrite (run_spec ctl cpus now w Hc).
  set (c := Z.to_nat (concurrent_requests_count ctl cpus)).
  set (first := value (start_frame_control ctl)) in *.
  set (last := value (end_frame_control ctl)) in *.
  set (total := value (total_frames_control ctl)) in *.
  assert (sequenced_closed (source w) first last total c 0 0
            (mk_World (run_started ctl cpus now (toolbar w)) (source w))) as Hstart.
  { unfold sequenced_closed, run_started. cbn [toolbar source]. rewrite Hmode.
    cbn [unsequenced start_frame end_frame frames_left buffer value
         FrameInterval_wrapper FrameInterval_value].
    split_ands.
    - reflexivity.
    - unfold first. now destruct (start_frame_control ctl).
    - unfold last. now destruct (end_frame_control ctl).
    - change (FrameInterval_value (total_frames_control ctl)) with total. lia.
    - reflexivity.
    - cbn. now rewrite app_nil_r.
    - rewrite Hquiet. intros f [].
    - apply extends_refl.
    - apply ordered_since_start. }
  destruct (sequenced_closed_run_loop (source w) first last total c now
              (initial_requests ctl cpus) Hfirst 0%nat _
              (initial_requests_le ctl cpus) Hstart) as (w' & -> & Hw').
  cbn [fst snd]. split; [reflexivity|].
  destruct w' as [t' h']. cbn [toolbar source].
  apply (sequenced_closed_same _ _ _ _ _ _ _ (mk_World t' h')); [repeat split | exact Hw'].
Qed.

(** ** Unsequenced mode over a valid range *)

Lemma issued_waited_for (future : option nat) (h : history) :
  issued (waited future h) = issued h.
Proof. destruct future as [f|]; [apply issued_waited | reflexivity]. Qed.

Lemma unsequenced_request_ok (future : option nat) (now : Q) (t : BenchmarkToolbar)
      (h : history) :
  running t = true ->
  0 < value (frames_left t) ->
  value (frames_left t) <= value (end_frame t) + 1 ->
  _request_next_frame_unsequenced future now (mk_World t h) =
    (Ok tt,
     mk_World (decremented t)
       (waited future
          (Requested (value (end_frame t) + 1 - value (frames_left t)) true :: h))).
Proof.
  intros Hrun Hpos Hle.
  assert (frames_left_exhausted t = false) as E by (apply le_false_value; cbn; lia).
  rewrite (unsequenced_request future now (mk_World t h) E). cbn [toolbar source].
  rewrite Hrun, next_frame_of_ok by lia. reflexivity.
Qed.

Lemma abort_cases (now : Q) (w : World) :
  exists t' : BenchmarkToolbar,
    snd (abort now w) = mk_World t' (source w) /\
    same_run_state (toolbar w) t' /\
    (running t' = false \/ t' = toolbar w).
Proof.
  rewrite abort_spec. destruct w as [t h]. cbn [toolbar source].
  unfold abort_result. destruct (running t) eqn:Hrun.
  - destruct (info_str now t); cbn [result_map result_bind snd].
    + eexists. split; [reflexivity|]. split; [repeat split | now left].
    + exists t. split; [reflexivity|]. split; [apply same_run_state_refl | now right].
  - eexists. split; [reflexivity|]. split; [repeat split | now left].
Qed.

(** ** The claims on a run *)





(** ** [run] validates nothing *)








(** ** Coverage of the range *)

(** The unsequenced run of the specification's example, completions in an
    arbitrary order: ten requests, one per frame. *)
Example unsequenced_run_0_9 :
  let w := deliver_all
             [Press (sample_controls 0 9 true) 4 1;
              Done 2 2; Done 0 2; Done 1 2; Done 3 2; Done 5 2; Done 4 2;
              Done 7 3; Done 6 3; Done 9 3; Done 8 3] world_init in
  running (toolbar w) = false /\
  pending (source w) = [] /\
  issued (source w) = [0; 1; 2; 3; 4; 5; 6; 7; 8; 9].
Proof. vm_compute. repeat split; reflexivity. Qed.

(** Every sequenced run over a valid range: once [j] ticks have been
    served, the requests are the [min(total, concurrency)] first frames,
    followed by the first [j] frames once more. *)
Lemma sequenced_run_issued (ctl : Controls) (cpus : nat) (now : Q) (w0 w : World) :
  valid_controls ctl -> unsequenced_checkbox ctl = false ->
  1 <= concurrent_requests_count ctl (Z.of_nat cpus) ->
  run_abort_button (toolbar w0) = false ->
  pending (source w0) = [] ->
  during_run (snd (handle (Press ctl cpus now) w0)) w ->
  exists j : nat,
    value (frames_left (toolbar w)) = value (total_frames_control ctl) - Z.of_nat j /\
    issued (source w)
    = issued (source w0)
        ++ frame_run (value (start_frame_control ctl))
             (initial_requests ctl (Z.of_nat cpus))
        ++ frame_run (value (start_frame_control ctl)) j.
Proof.
  intros (Hfirst & Hlast & Htotal) Hmode Hone Hbtn Hquiet Hrun.
  pose proof (concurrent_requests_count_nonneg ctl cpus) as Hc.
  assert (snd (handle (Press ctl cpus now) w0)
          = snd (run ctl (Z.of_nat cpus) now
                   (mk_World (pressed true (toolbar w0)) (source w0)))) as Hstart
    by now rewrite handle_press, Hbtn.
  destruct (run_sequenced_closed ctl (Z.of_nat cpus) now
              (mk_World (pressed true (toolbar w0)) (source w0)) Hfirst Hmode Hc Hquiet)
    as [_ Hclosed].
  rewrite <- Hstart in Hclosed. cbn [source] in Hclosed.
  assert (sequenced_inv (source w0)
            (Z.to_nat (concurrent_requests_count ctl (Z.of_nat cpus))) 0
            (snd (handle (Press ctl cpus now) w0))) as Hseq.
  { rewrite Hstart.
    destruct (run_establishes_mode_inv ctl (Z.of_nat cpus) now
                (mk_World (pressed true (toolbar w0)) (source w0)) Hc Hquiet)
      as [[_ Hs] | [Hother _]]; [congruence | exact Hs | congruence]. }
  assert (1 <= initial_requests ctl (Z.of_nat cpus)
          <= Z.to_nat (concurrent_requests_count ctl (Z.of_nat cpus)))%nat
    as Hinitial by (unfold initial_requests; lia).
  destruct (during_run_sequenced_closed _ _ _ _ _ _ _ w Hfirst Htotal Hinitial Hseq
              (ex_intro _ 0%nat Hclosed) Hrun) as [_ [j Hj]].
  exists j. destruct Hj as (_ & _ & _ & Hleft & _ & Hissued & _). now split.
Qed.

(** C1 (the code at the failing input): a sequenced run over [0 .. 9] with
    concurrency 3, served until the toolbar stops by itself.  [run] requests
    frames 0, 1, 2; the first three ticks compute
    [end_frame + 1 - frames_left] = 0, 1, 2 and request them a second time:
    13 requests for 10 frames. *)
Theorem sequenced_run_requests_twice :
  let w := deliver_all (Press (sample_controls 0 9 false) 3 1 :: repeat (Tick 2) 11)
             world_init in
  running (toolbar w) = false /\
  value (frames_left (toolbar w)) = 0 /\
  issued (source w) = [0; 1; 2; 0; 1; 2; 3; 4; 5; 6; 7; 8; 9] /\
  count_occ Z.eq_dec (issued (source w)) 0 = 2%nat /\
  ~ NoDup (issued (source w)).
Proof.
  intros w.
  assert (issued (source w) = [0; 1; 2; 0; 1; 2; 3; 4; 5; 6; 7; 8; 9]) as Hissued
    by (vm_compute; reflexivity).
  split; [vm_compute; reflexivity|]. split; [vm_compute; reflexivity|].
  split; [exact Hissued|]. rewrite Hissued. split; [reflexivity|].
  intros Hnd. inversion Hnd as [|x l Hin _]. apply Hin. cbn. tauto.
Qed.

(** ** After [abort] *)

(** Unsequenced mode: once the toolbar is not running, completions, polls
    and (absent) ticks issue no request. *)
Lemma unsequenced_stopped_quiet (i : input) (w : World) :
  running (toolbar w) = false -> sequenced_timer (toolbar w) = false ->
  enabled i w = true -> is_press i = false ->
  issued (source (snd (handle i w))) = issued (source w) /\
  running (toolbar (snd (handle i w))) = false /\
  sequenced_timer (toolbar (snd (handle i w))) = false.
Proof.
  intros Hstop Htimer Hen Hpress. destruct i as [ctl cpus now | now | f now | now].
  - discriminate.
  - cbn [enabled] in Hen. congruence.
  - cbn [handle]. destruct w as [t h]. cbn [toolbar source] in *.
    destruct (has_callback h f); [|now split_ands].
    destruct (frames_left_exhausted t) eqn:E.
    + rewrite (unsequenced_exhausted (Some f) now (mk_World t (Resolved f :: h)) E).
      destruct (abort_cases now (mk_World t (Resolved f :: h)))
        as (t' & -> & Hsame & Hcase). cbn [snd toolbar source] in *.
      destruct Hsame as (_ & _ & _ & _ & _ & _ & _ & Ht).
      split; [reflexivity|]. split; [|congruence].
      destruct Hcase as [Hr | ->]; assumption.
    + rewrite (unsequenced_request (Some f) now (mk_World t (Resolved f :: h)) E).
      cbn [toolbar source]. rewrite Hstop. cbn [snd toolbar source].
      split; [|now split]. rewrite is_pending_resolved. reflexivity.
  - cbn [handle]. destruct (update_info_same now w) as (t' & -> & Hsame & Hr & _).
    destruct Hsame as (_ & _ & _ & _ & _ & _ & _ & Ht). cbn [snd toolbar source].
    split; [reflexivity|]. split; congruence.
Qed.

Lemma unsequenced_aborted_quiet (w1 w : World) :
  running (toolbar w1) = false -> sequenced_timer (toolbar w1) = false ->
  undisturbed w1 w ->
  issued (source w) = issued (source w1).
Proof.
  intros Hstop Htimer Hrun.
  assert (issued (source w) = issued (source w1) /\
          running (toolbar w) = false /\ sequenced_timer (toolbar w) = false) as [H _].
  { induction Hrun as [|i w Hw (IH1 & IH2 & IH3) Hen Hpress].
    - now split_ands.
    - destruct (unsequenced_stopped_quiet i w IH2 IH3 Hen Hpress) as (E & Hr & Ht).
      split; [congruence | now split]. }
  exact H.
Qed.

(** C2 (the code at the failing input): a sequenced run over 100 frames
    with concurrency 5 is aborted right after its start.  [abort] leaves
    [sequenced_timer] running and [_request_next_frame_sequenced] does not
    look at [running]: the next tick issues a sixth request, and the ticks
    go on until all 105 requests of the run are made. *)
Theorem sequenced_abort_keeps_requesting :
  let ctl := sample_controls 0 99 false in
  let aborted := deliver_all [Press ctl 5 1; Press ctl 5 2] world_init in
  running (toolbar aborted) = false /\
  sequenced_timer (toolbar aborted) = true /\
  List.length (issued (source aborted)) = 5%nat /\
  issued (source (deliver (Tick 3) aborted)) = [0; 1; 2; 3; 4; 0] /\
  running (toolbar (deliver (Tick 3) aborted)) = false /\
  List.length (issued (source (deliver_all (repeat (Tick 3) 100) aborted))) = 105%nat.
Proof. vm_compute. repeat split; reflexivity. Qed.

(** The same abort in unsequenced mode: the five requests of [run] resolve
    and nothing more is requested. *)
Example unsequenced_abort_stops :
  let ctl := sample_controls 0 99 true in
  let aborted := deliver_all [Press ctl 5 1; Press ctl 5 2] world_init in
  let w := deliver_all [Done 3 3; Done 0 3; Done 1 3; Done 4 3; Done 2 3] aborted in
  running (toolbar aborted) = false /\
  issued (source w) = [0; 1; 2; 3; 4] /\
  pending (source w) = [].
Proof. vm_compute. repeat split; reflexivity. Qed.

(* ================================================================== *)
(** * Further properties of the code                                   *)
(* ================================================================== *)

(** ** Comparisons and arithmetic of the value types *)

(** X1: the six comparison operators of a wrapper, of which four are derived
    from [__eq__] and [__gt__], are the six relations of the integer order
    on the wrapped values. *)
Theorem wrapper_comparisons_order {T : Type} `{YAMLObjectWrapper T} (a b : T) :
  (__eq__ a b = true <-> value a = value b) /\
  (__ne__ a b = true <-> value a <> value b) /\
  (__lt__ a b = true <-> value a < value b) /\
  (__le__ a b = true <-> value a <= value b) /\
  (__gt__ a b = true <-> value a > value b) /\
  (__ge__ a b = true <-> value a >= value b).
Proof.
  unfold __lt__, __ge__, __le__, __ne__, __gt__, __eq__.
  rewrite !negb_true_iff, orb_false_iff, orb_true_iff, Z.gtb_ltb.
  rewrite Z.eqb_eq, Z.eqb_neq, Z.ltb_lt, Z.ltb_ge.
  split_ands; lia.
Qed.

(** X2: [Frame + FrameInterval] raises ValueError exactly when the sum is
    negative; when it is not, the sum is a frame from which subtracting the
    same interval gives the first frame back. *)
Theorem Frame_add_sub_interval (a : Frame) (d : FrameInterval) :
  (value a + value d < 0 -> Frame___add__ a d = Raise ValueError) /\
  (0 <= value a -> 0 <= value a + value d ->
   exists r : Frame,
     Frame___add__ a d = Ok r /\
     value r = value a + value d /\
     Frame___sub__ r (OInterval d) = Ok (OFrame a)).
Proof.
  split.
  - intros Hneg. now apply Frame_of_int_negative.
  - intros Ha Hsum. exists (mk_Frame (value a + value d)).
    split; [now apply Frame_of_int_ok|]. split; [reflexivity|].
    unfold Frame___sub__, Frame_sub_FrameInterval.
    replace (value (mk_Frame (value a + value d)) - value d) with (value a) by (cbn; lia).
    rewrite Frame_of_int_ok by assumption. now destruct a.
Qed.

Lemma Frame_add_sub_interval_witness :
  exists r : Frame,
    Frame___add__ (mk_Frame 10) (mk_FrameInterval (-4)) = Ok r /\
    value r = 6 /\
    Frame___sub__ r (OInterval (mk_FrameInterval (-4))) = Ok (OFrame (mk_Frame 10)).
Proof.
  destruct (Frame_add_sub_interval (mk_Frame 10) (mk_FrameInterval (-4))) as [_ Hok].
  apply Hok; cbn; lia.
Defined.

(** ** Scenes *)

(** X5: [Scene(start, end)] fails with ValueError only when both frames are
    missing; otherwise it orders its frames, so that [start <= end], the
    duration is not negative and the scene contains both of its ends. *)
Theorem Scene_init_ordered (start end_ : option Frame) (label : string) :
  (Scene___init__ start end_ label = Raise ValueError <-> start = None /\ end_ = None) /\
  (forall s : Scene,
      Scene___init__ start end_ label = Ok s ->
      value (Scene_start s) <= value (Scene_end s) /\
      0 <= value (Scene_duration s) /\
      Scene___contains__ s (Scene_start s) = true /\
      Scene___contains__ s (Scene_end s) = true /\
      Scene_label s = label).
Proof.
  split.
  - destruct start, end_; cbn; split; try discriminate; try tauto;
      intros [? ?]; discriminate.
  - intros s Hs.
    assert (exists a b : Frame,
               s = if __gt__ a b then mk_Scene b a label else mk_Scene a b label)
      as (a & b & ->).
    { destruct start as [x|], end_ as [y|]; cbn in Hs; try discriminate;
        injection Hs as <-; eauto. }
    unfold Scene___contains__, Scene_duration, Frame_sub_Frame.
    destruct (__gt__ a b) eqn:E; cbn [Scene_start Scene_end Scene_label];
      unfold __gt__ in E; rewrite Z.gtb_ltb in E;
      [apply Z.ltb_lt in E | apply Z.ltb_ge in E];
      rewrite andb_true_iff, !le_zero_value; cbn; split_ands; try lia;
      try reflexivity; rewrite andb_true_iff, !le_zero_value; lia.
Qed.

Lemma Scene_init_ordered_witness :
  let s := mk_Scene (mk_Frame 4) (mk_Frame 9) "cut" in
  value (Scene_start s) <= value (Scene_end s) /\
  0 <= value (Scene_duration s) /\
  Scene___contains__ s (Scene_start s) = true /\
  Scene___contains__ s (Scene_end s) = true /\
  Scene_label s = "cut"%string.
Proof.
  apply (proj2 (Scene_init_ordered (Some (mk_Frame 9)) (Some (mk_Frame 4)) "cut")).
  reflexivity.
Defined.

(** X6: scenes are ordered by start frame, then by end frame; the label
    takes no part, so scenes that differ only by their label are equal, and
    of [a < b], [a == b], [a > b] exactly one holds. *)
Theorem Scene_order_lexicographic (a b : Scene) :
  let key (s : Scene) := (value (Scene_start s), value (Scene_end s)) in
  let lex_lt (x y : Z * Z) := fst x < fst y \/ (fst x = fst y /\ snd x < snd y) in
  (Scene___eq__ a b = true <-> key a = key b) /\
  (Scene___lt__ a b = true <-> lex_lt (key a) (key b)) /\
  (Scene___gt__ a b = true <-> lex_lt (key b) (key a)) /\
  (Scene___le__ a b = true <-> ~ lex_lt (key b) (key a)) /\
  (Scene___ge__ a b = true <-> ~ lex_lt (key a) (key b)) /\
  (Scene___ne__ a b = negb (Scene___eq__ a b)) /\
  (Scene___lt__ a b = true \/ Scene___eq__ a b = true \/ Scene___gt__ a b = true).
Proof.
  cbv zeta. destruct a as [[sa] [ea] la], b as [[sb] [eb] lb].
  unfold Scene___lt__, Scene___ge__, Scene___le__, Scene___ne__, Scene___gt__,
    Scene___eq__, __ne__, __gt__, __eq__.
  cbn [Scene_start Scene_end value Frame_wrapper Frame_value fst snd].
  rewrite !Z.gtb_ltb.
  destruct (Z.eqb_spec sa sb) as [Hs | Hs], (Z.eqb_spec ea eb) as [He | He],
    (Z.ltb_spec sb sa) as [Hsl | Hsl], (Z.ltb_spec eb ea) as [Hel | Hel];
    cbn; split_ands; try reflexivity;
    try (split; [intros; try discriminate; try congruence; lia
                | intros; try lia; try congruence;
                  match goal with
                  | H : (_, _) = (_, _) |- _ => injection H as ? ?; lia
                  | _ => idtac
                  end]);
    try (left; reflexivity); try (right; left; reflexivity); try (right; right; reflexivity).
Qed.

(** ** [to_qtime] and [from_qtime] *)

Lemma td_seconds_range (td : timedelta) : 0 <= td_seconds td < 86400.
Proof. unfold td_seconds. apply Z.mod_pos_bound. lia. Qed.

Lemma td_microseconds_range (td : timedelta) : 0 <= td_microseconds td < 1000000.
Proof. unfold td_microseconds. apply Z.mod_pos_bound. lia. Qed.

(** X13: [to_qtime] passes [td.seconds // 60] as the minute, so the
    [QTime] it builds is valid exactly when the seconds of the day are below
    3600; for a time from 0 up to one hour, [from_qtime (to_qtime t)] is [t]
    truncated to the millisecond. *)
Theorem to_qtime_valid_below_one_hour (td : timedelta) :
  (QTime_isValid (to_qtime td) = true <-> td_seconds td < 3600) /\
  (0 <= total_us td < 3600000000 ->
   from_qtime (to_qtime td) = whole_milliseconds td).
Proof.
  pose proof (td_seconds_range td) as Hs.
  pose proof (td_microseconds_range td) as Hu.
  assert (0 <= td_seconds td / 3600 <= 23) as Hh.
  { split; [apply Z.div_pos; lia|]. apply Z.lt_succ_r, Z.div_lt_upper_bound; lia. }
  assert (0 <= td_seconds td mod 60 < 60) as Hsec by (apply Z.mod_pos_bound; lia).
  assert (0 <= td_microseconds td / 1000 <= 999) as Hms.
  { split; [apply Z.div_pos; lia|]. apply Z.lt_succ_r, Z.div_lt_upper_bound; lia. }
  assert (0 <= td_seconds td / 60) as Hm by (apply Z.div_pos; lia).
  assert (QTime_isValid (to_qtime td) = true <-> td_seconds td < 3600) as Hvalid.
  { unfold QTime_isValid, to_qtime. cbn [qtime_hour qtime_minute qtime_second qtime_msec].
    rewrite !andb_true_iff, !Z.leb_le. split.
    - intros H. assert (td_seconds td / 60 <= 59) as Hle by tauto.
      pose proof (Z.mul_div_le (td_seconds td) 60 ltac:(lia)).
      pose proof (Z.mod_pos_bound (td_seconds td) 60 ltac:(lia)).
      pose proof (Z.div_mod (td_seconds td) 60 ltac:(lia)). lia.
    - intros Hlt. assert (td_seconds td / 60 <= 59).
      { apply Z.lt_succ_r, Z.div_lt_upper_bound; lia. }
      split_ands; lia. }
  split; [exact Hvalid|].
  intros Hrange.
  assert (td_seconds td = total_us td / 1000000) as Es.
  { unfold td_seconds. apply Z.mod_small. split; [apply Z.div_pos; lia|].
    apply Z.div_lt_upper_bound; lia. }
  assert (td_seconds td < 3600) as Hlt.
  { rewrite Es. apply Z.div_lt_upper_bound; lia. }
  unfold from_qtime, msecsSinceStartOfDay. rewrite (proj2 Hvalid Hlt).
  unfold to_qtime, whole_milliseconds, timedelta_milliseconds.
  cbn [qtime_hour qtime_minute qtime_second qtime_msec]. f_equal.
  rewrite (Z.div_small (td_seconds td) 3600) by lia.
  pose proof (Z.div_mod (td_seconds td) 60 ltac:(lia)) as D1.
  unfold td_microseconds in *. rewrite Es in *.
  pose proof (Z.div_mod (total_us td) 1000000 ltac:(lia)) as D2.
  pose proof (Z.div_mod (total_us td mod 1000000) 1000 ltac:(lia)) as D3.
  assert ((total_us td mod 1000000) mod 1000 = total_us td mod 1000) as D4.
  { apply Z.mod_mod_divide. exists 1000. reflexivity. }
  lia.
Qed.

Lemma to_qtime_valid_below_one_hour_witness :
  from_qtime (to_qtime (mk_timedelta 83456789)) = whole_milliseconds (mk_timedelta 83456789).
Proof.
  apply (to_qtime_valid_below_one_hour (mk_timedelta 83456789)). cbn. lia.
Defined.

(** ** [DeltaTemplate] and [strfdelta] *)

Local Open Scope string_scope.

Lemma result_map_String_append (c : ascii) (s : string) (r : result string) :
  result_map (String c) (result_map (append s) r) = result_map (append (String c s)) r.
Proof. now destruct r. Qed.

Lemma substitute_from_text (d : mapping) (s1 s2 : string) :
  no_delimiter s1 = true ->
  substitute_from d Text (s1 ++ s2) = result_map (append s1) (substitute_from d Text s2).
Proof.
  induction s1 as [|c s1 IH]; intros Hs.
  - cbn. now destruct (substitute_from d Text s2).
  - cbn in Hs. apply andb_true_iff in Hs as [Hc Hs]. apply negb_true_iff in Hc.
    cbn [append substitute_from]. rewrite Hc, IH by assumption.
    apply result_map_String_append.
Qed.

Lemma append_empty_r (s : string) : s ++ "" = s.
Proof. induction s as [|c s IH]; [reflexivity | cbn; now rewrite IH]. Qed.

(** X14: [substitute] returns a format without the delimiter [%] unchanged,
    whatever the mapping; a doubled delimiter after it gives one [%], and a
    single delimiter at the end raises ValueError. *)
Theorem substitute_plain_text (d : mapping) (s : string) :
  no_delimiter s = true ->
  substitute s d = Ok s /\
  substitute (s ++ "%%") d = Ok (s ++ "%") /\
  substitute (s ++ "%") d = Raise ValueError.
Proof.
  intros Hs. unfold substitute. split_ands.
  - rewrite <- (append_empty_r s) at 1. rewrite substitute_from_text by assumption.
    cbn. now rewrite append_empty_r.
  - now rewrite substitute_from_text by assumption.
  - now rewrite substitute_from_text by assumption.
Qed.

Lemma substitute_plain_text_witness :
  substitute "12:30" [] = Ok "12:30" /\
  substitute ("12:30" ++ "%%") [] = Ok ("12:30" ++ "%") /\
  substitute ("12:30" ++ "%") [] = Raise ValueError.
Proof. apply (substitute_plain_text [] "12:30"). reflexivity. Defined.

Lemma format_0d_width (width bound : nat) :
  forallb (fun k => Nat.eqb (String.length (format_0d width (Z.of_nat k))) width)
    (seq 0 bound) = true ->
  forall n : Z, (0 <= n < Z.of_nat bound)%Z -> String.length (format_0d width n) = width.
Proof.
  intros Hall n Hn. rewrite forallb_forall in Hall.
  specialize (Hall (Z.to_nat n)). rewrite Z2Nat.id in Hall by lia.
  apply Nat.eqb_eq, Hall, in_seq. lia.
Qed.

Lemma format_0d_2_wide (n : Z) :
  (100 <= n < 1440)%Z -> (2 < String.length (format_0d 2 n))%nat.
Proof.
  intros Hn.
  assert (forallb (fun k => Nat.ltb 2 (String.length (format_0d 2 (Z.of_nat k))))
            (seq 100 1340) = true) as Hall by (vm_compute; reflexivity).
  rewrite forallb_forall in Hall.
  specialize (Hall (Z.to_nat n)). rewrite Z2Nat.id in Hall by lia.
  apply Nat.ltb_lt, Hall, in_seq. lia.
Qed.

(** X15: [Time.__str__] never raises: every time, negative ones included,
    prints as hours, [:], minutes, [:], seconds, [.], milliseconds.  The
    seconds always take two characters and the milliseconds three; the
    minutes take two exactly when the seconds of the day are below 6000. *)
Theorem Time_str_fields (t : Time) :
  let td := Time_value t in
  Time___str__ t
  = Ok (format_d (strfdelta_hours td) ++ ":" ++ format_0d 2 (strfdelta_minutes td)
        ++ ":" ++ format_0d 2 (strfdelta_seconds td)
        ++ "." ++ format_0d 3 (strfdelta_milliseconds td)) /\
  String.length (format_0d 2 (strfdelta_seconds td)) = 2%nat /\
  String.length (format_0d 3 (strfdelta_milliseconds td)) = 3%nat /\
  (String.length (format_0d 2 (strfdelta_minutes td)) = 2%nat
   <-> (td_seconds td < 6000)%Z).
Proof.
  cbv zeta. set (td := Time_value t).
  pose proof (td_seconds_range td) as Hs.
  pose proof (td_microseconds_range td) as Hu.
  split; [reflexivity|]. split_ands.
  - apply (format_0d_width 2 60); [vm_compute; reflexivity|].
    unfold strfdelta_seconds. apply Z.mod_pos_bound. lia.
  - apply (format_0d_width 3 1000); [vm_compute; reflexivity|].
    unfold strfdelta_milliseconds. split; [apply Z.div_pos; lia|].
    apply Z.div_lt_upper_bound; lia.
  - unfold strfdelta_minutes. split.
    + intros Hlen. destruct (Z_lt_le_dec (td_seconds td) 6000) as [Hlt | Hge]; [assumption|].
      assert (100 <= td_seconds td / 60 < 1440)%Z as Hm.
      { split; [apply Z.div_le_lower_bound; lia | apply Z.div_lt_upper_bound; lia]. }
      pose proof (format_0d_2_wide _ Hm). lia.
    + intros Hlt. apply (format_0d_width 2 100); [vm_compute; reflexivity|].
      split; [apply Z.div_pos; lia | apply Z.div_lt_upper_bound; lia].
Qed.

Local Close Scope string_scope.

(** ** [set_status_label] *)

(** X16: a function decorated with [set_status_label(label)] that leaves
    the status text alone: when it returns, a status that read Ready reads
    Ready again and any other status different from [label] is untouched,
    also when a function decorated with another label calls it; when it
    raises, nothing is restored and the status stays at [label]. *)
Theorem set_status_label_restores {A : Type} (label inner : string)
        (func : string -> result A * string) :
  (forall text, snd (func text) = text) ->
  (forall a, fst (func label) = Ok a ->
     snd (set_status_label label func "Ready") = "Ready"%string) /\
  (forall e, fst (func label) = Raise e ->
     snd (set_status_label label func "Ready") = label) /\
  (forall text, String.eqb text "Ready" = false -> String.eqb text label = false ->
     snd (set_status_label label func text) = text) /\
  (forall a, fst (func label) = Ok a -> String.eqb label "Ready" = false ->
     set_status_label label (set_status_label inner func) "Ready"
     = (Ok a, "Ready"%string)).
Proof.
  intros Hpure. split_ands.
  - intros a Ha. unfold set_status_label. rewrite String.eqb_refl.
    specialize (Hpure label).
    destruct (func label) as [[r | e] text2]; cbn in *; [|discriminate].
    subst text2. now rewrite String.eqb_refl.
  - intros e He. unfold set_status_label. rewrite String.eqb_refl.
    specialize (Hpure label).
    destruct (func label) as [[r | e'] text2]; cbn in *; [discriminate|]. assumption.
  - intros text Hready Hlabel. unfold set_status_label. rewrite Hready.
    specialize (Hpure text).
    destruct (func text) as [[r | e] text2]; cbn in *; subst text2;
      [now rewrite Hlabel | reflexivity].
  - intros a Ha Hlabel. unfold set_status_label. rewrite String.eqb_refl, Hlabel.
    pose proof (Hpure label) as Hp.
    destruct (func label) as [[r | e] text2]; cbn in *; [|discriminate].
    subst text2. injection Ha as ->.
    destruct (String.eqb label inner) eqn:E.
    + now destruct (String.eqb "Ready" label).
    + now rewrite String.eqb_refl.
Qed.

Lemma set_status_label_restores_witness :
  snd (set_status_label "Saving" (fun text => (Ok 7, text)) "Ready") = "Ready"%string /\
  set_status_label "Saving" (set_status_label "Loading" (fun text => (Ok 7, text))) "Ready"
  = (Ok 7, "Ready"%string).
Proof.
  destruct (set_status_label_restores "Saving" "Loading" (fun text => (Ok 7, text)))
    as (Hret & _ & _ & Hnest).
  - reflexivity.
  - split; [apply (Hret 7); reflexivity | apply Hnest; reflexivity].
Defined.

(** ** [BenchmarkToolbar.update_controls] *)

Ltac controls_unfold :=
  unfold update_controls, controls_updated, valid_controls, FrameInterval___add__,
    FrameInterval___sub__, Frame_sub_Frame, Frame___iadd__, Frame___isub__,
    FrameInterval_of_int, operand_value, __lt__, __ge__, __le__, __ne__, __gt__, __eq__ in *;
  cbn [value Frame_wrapper FrameInterval_wrapper Frame_value FrameInterval_value
       start_frame_control end_frame_control total_frames_control] in *.

(** X17: [update_controls] keeps the three controls consistent.  From
    controls that hold a range [0 <= start <= end <= last frame of the
    output] with its length, an edit of the start or of the end to a frame
    of the output, or of the total to a length from 1 to the number of
    frames of the output, stores again such a range with its length, and
    the edited control keeps the value typed.  A total above the number of
    frames makes the unchecked [start -= ...] compute a negative start. *)
Theorem update_controls_consistent (ctl : Controls) (last x : Frame) (n : FrameInterval) :
  valid_controls ctl -> value (end_frame_control ctl) <= value last ->
  let stored (v : option (Frame * Frame * FrameInterval)) (ctl' : Controls) :=
    v = Some (start_frame_control ctl', end_frame_control ctl', total_frames_control ctl') in
  let in_output (ctl' : Controls) :=
    valid_controls ctl' /\ value (end_frame_control ctl') <= value last in
  (0 <= value x <= value last ->
   (exists ctl', stored (update_controls (Some x) None None ctl last) ctl' /\
                 in_output ctl' /\ start_frame_control ctl' = x) /\
   (exists ctl', stored (update_controls None (Some x) None ctl last) ctl' /\
                 in_output ctl' /\ end_frame_control ctl' = x)) /\
  (1 <= value n <= value last + 1 ->
   exists ctl', stored (update_controls None None (Some n) ctl last) ctl' /\
                in_output ctl' /\ total_frames_control ctl' = n) /\
  (value last + 1 < value n ->
   exists ctl', stored (update_controls None None (Some n) ctl last) ctl' /\
                value (start_frame_control ctl') < 0).
Proof.
  intros Hvalid Hlast. cbv zeta.
  destruct ctl as [[s] [e] [t] prefetch unseq], last as [m], x as [x], n as [n].
  controls_unfold. destruct Hvalid as (Hs & Hse & Ht). split_ands.
  - intros Hx. split.
    + destruct (Z.gtb_spec x e) as [Hgt | Hle].
      * exists (mk_Controls (mk_Frame x) (mk_Frame x) (mk_FrameInterval (x - x + 1))
                 prefetch unseq). cbn. split_ands; try reflexivity; lia.
      * exists (mk_Controls (mk_Frame x) (mk_Frame e) (mk_FrameInterval (e - x + 1))
                 prefetch unseq). cbn. split_ands; try reflexivity; lia.
    + destruct (Z.eqb_spec x s) as [Heq | Hne], (Z.gtb_spec x s) as [Hgt | Hle];
        cbn [orb negb].
      all: try (exists (mk_Controls (mk_Frame s) (mk_Frame x) (mk_FrameInterval (x - s + 1))
                          prefetch unseq); cbn; split_ands; try reflexivity; lia).
      exists (mk_Controls (mk_Frame x) (mk_Frame x) (mk_FrameInterval (x - x + 1))
                prefetch unseq). cbn. split_ands; try reflexivity; lia.
  - intros Hn. destruct (Z.gtb_spec (e + (n - (e - s + 1))) m) as [Hgt | Hle].
    + exists (mk_Controls (mk_Frame (s - (e + (n - (e - s + 1)) - m))) (mk_Frame m)
                (mk_FrameInterval n) prefetch unseq).
      cbn. split_ands; try reflexivity; lia.
    + exists (mk_Controls (mk_Frame s) (mk_Frame (e + (n - (e - s + 1))))
                (mk_FrameInterval n) prefetch unseq).
      cbn. split_ands; try reflexivity; lia.
  - intros Hn. destruct (Z.gtb_spec (e + (n - (e - s + 1))) m) as [Hgt | Hle]; [|lia].
    exists (mk_Controls (mk_Frame (s - (e + (n - (e - s + 1)) - m))) (mk_Frame m)
              (mk_FrameInterval n) prefetch unseq).
    cbn. split; [reflexivity | lia].
Qed.

Lemma update_controls_consistent_witness :
  exists ctl' : Controls,
    update_controls None None (Some (mk_FrameInterval 95)) (sample_controls 10 20 false)
      (mk_Frame 100)
    = Some (start_frame_control ctl', end_frame_control ctl', total_frames_control ctl') /\
    (valid_controls ctl' /\ value (end_frame_control ctl') <= value (mk_Frame 100)) /\
    total_frames_control ctl' = mk_FrameInterval 95.
Proof.
  destruct (update_controls_consistent (sample_controls 10 20 false) (mk_Frame 100)
              (mk_Frame 30) (mk_FrameInterval 95)) as (_ & Htotal & _).
  - unfold valid_controls, sample_controls. cbn. lia.
  - cbn. lia.
  - apply Htotal. cbn. lia.
Defined.

(** ** The end of a sequenced run *)

Lemma run_sequenced_in_progress (ctl : Controls) (cpus : Z) (now : Q) (w : World) :
  0 <= concurrent_requests_count ctl cpus ->
  unsequenced_checkbox ctl = false ->
  run_abort_button (toolbar w) = true ->
  run_in_progress now (toolbar (snd (run ctl cpus now w))).
Proof.
  intros Hc Hmode Hbtn. rewrite (run_spec ctl cpus now w Hc).
  set (w1 := mk_World (run_started ctl cpus now (toolbar w)) (source w)).
  set (xs := map Z.of_nat (seq 0 (initial_requests ctl cpus))).
  pose (P := fun (_ : nat) (w : World) =>
               unsequenced (toolbar w) = false /\ run_in_progress now (toolbar w)).
  assert (P 0%nat (snd (for_each xs (run_request now) w1))) as [_ H].
  { apply for_each_invariant.
    - trivial.
    - intros n x w' [Hu Hp]. unfold P. rewrite run_request_sequenced by assumption.
      destruct (Frame___add__ _ _); (split; [exact Hu | exact Hp]).
    - unfold P, run_in_progress, w1. cbn. rewrite Hmode. now split_ands. }
  destruct (for_each xs (run_request now) w1) as [[[]|e] w']; cbn in *; exact H.
Qed.

Lemma sequenced_tick_in_progress (now now' : Q) (w : World) :
  frames_left_exhausted (toolbar w) = false ->
  run_in_progress now (toolbar w) ->
  run_in_progress now (toolbar (snd (_request_next_frame_sequenced now' w))).
Proof.
  intros E Hp. rewrite sequenced_request by assumption.
  destruct (pop (buffer (toolbar w))) as [[f buf] | e]; [|exact Hp].
  cbv zeta. destruct (next_frame_of _) as [next | e]; [|exact Hp].
  destruct (__le__ next _); exact Hp.
Qed.

Lemma sequenced_ticks (h0 : history) (first last total : Z) (c a : nat) (now : Q)
      (times : list Q) :
  0 <= first -> total = last - first + 1 -> (1 <= a <= c)%nat ->
  forall (j : nat) (w : World),
    Z.of_nat (j + List.length times) <= total ->
    sequenced_closed h0 first last total c a j w ->
    run_in_progress now (toolbar w) ->
    sequenced_closed h0 first last total c a (j + List.length times)
      (deliver_all (map Tick times) w) /\
    run_in_progress now (toolbar (deliver_all (map Tick times) w)).
Proof.
  intros Hfirst Htotal Ha.
  induction times as [|t times IH]; intros j w Hj Hclosed Hp.
  - cbn. rewrite Nat.add_0_r. now split.
  - cbn [List.length] in *.
    change (deliver_all (map Tick (t :: times)) w)
      with (deliver_all (map Tick times) (deliver (Tick t) w)).
    pose proof Hp as (_ & _ & Htimer & _).
    pose proof Hclosed as (_ & _ & _ & Hleft & _).
    assert (frames_left_exhausted (toolbar w) = false) as E.
    { apply le_false_value. cbn. cbn in Hleft. lia. }
    assert (deliver (Tick t) w = snd (_request_next_frame_sequenced t w)) as ->
      by (unfold deliver; cbn [enabled]; now rewrite Htimer).
    pose proof (sequenced_closed_tick h0 first last total c a j t w
                  Hfirst Htotal Ha Hclosed) as Hnext.
    assert ((Z.of_nat j <? total) = true) as Hlt by (apply Z.ltb_lt; lia).
    rewrite Hlt in Hnext.
    replace (j + S (List.length times))%nat with (S j + List.length times)%nat by lia.
    apply IH; [lia | exact Hnext | now apply sequenced_tick_in_progress].
Qed.

Lemma sequenced_run_ticked (ctl : Controls) (cpus : nat) (now : Q) (times : list Q)
      (w0 : World) :
  valid_controls ctl -> unsequenced_checkbox ctl = false ->
  1 <= concurrent_requests_count ctl (Z.of_nat cpus) ->
  run_abort_button (toolbar w0) = false ->
  pending (source w0) = [] ->
  Z.of_nat (List.length times) = value (total_frames_control ctl) ->
  let w := deliver_all (map Tick times) (snd (handle (Press ctl cpus now) w0)) in
  sequenced_closed (source w0)
    (value (start_frame_control ctl)) (value (end_frame_control ctl))
    (value (total_frames_control ctl))
    (Z.to_nat (concurrent_requests_count ctl (Z.of_nat cpus)))
    (initial_requests ctl (Z.of_nat cpus)) (List.length times) w /\
  run_in_progress now (toolbar w).
Proof.
  intros Hvalid Hmode Hone Hbtn Hquiet Hlen. cbv zeta.
  pose proof Hvalid as (Hfirst & Hlast & Htotal).
  pose proof (concurrent_requests_count_nonneg ctl cpus) as Hc.
  set (c := Z.to_nat (concurrent_requests_count ctl (Z.of_nat cpus))).
  set (a := initial_requests ctl (Z.of_nat cpus)).
  assert (1 <= a <= c)%nat as Ha by (unfold a, c, initial_requests; lia).
  set (w1 := snd (handle (Press ctl cpus now) w0)).
  assert (w1 = snd (run ctl (Z.of_nat cpus) now
                      (mk_World (pressed true (toolbar w0)) (source w0)))) as Hstart
    by (unfold w1; now rewrite handle_press, Hbtn).
  destruct (run_sequenced_closed ctl (Z.of_nat cpus) now
              (mk_World (pressed true (toolbar w0)) (source w0)) Hfirst Hmode Hc Hquiet)
    as [_ Hclosed].
  rewrite <- Hstart in Hclosed. cbn [source] in Hclosed. fold a c in Hclosed.
  assert (run_in_progress now (toolbar w1)) as Hp.
  { rewrite Hstart. now apply run_sequenced_in_progress. }
  exact (sequenced_ticks (source w0) _ _ _ c a now times Hfirst Htotal Ha 0%nat w1
           ltac:(cbn; lia) Hclosed Hp).
Qed.



Lemma firstn_In_list {A} (n : nat) (l : list A) (x : A) : In x (firstn n l) -> In x l.
Proof.
  intros Hx. rewrite <- (firstn_skipn n l). apply in_or_app. now left.
Qed.

Lemma firstn_NoDup {A} (n : nat) (l : list A) : NoDup l -> NoDup (firstn n l).
Proof.
  intros Hl. rewrite <- (firstn_skipn n l) in Hl. now apply NoDup_app_remove_r in Hl.
Qed.

Lemma appendleft_in_flight (buf : deque) (h : history) (k : Z) (cb : bool) :
  NoDup (items buf) ->
  (forall f, In f (items buf) -> In f (pending h)) ->
  NoDup (items (appendleft (List.length (requests h)) buf)) /\
  (forall f, In f (items (appendleft (List.length (requests h)) buf)) ->
             In f (pending (Requested k cb :: h))).
Proof.
  intros Hnd Hin.
  assert (NoDup (List.length (requests h) :: items buf)) as Hnd'.
  { constructor; [|exact Hnd]. intros Hf. apply Hin, pending_issued in Hf. lia. }
  assert (forall f, In f (List.length (requests h) :: items buf) ->
                    In f (pending (Requested k cb :: h))) as Hin'.
  { intros f [<- | Hf]; cbn; [now left | right; now apply Hin]. }
  unfold appendleft. cbn [items]. destruct (maxlen buf) as [m|].
  - split; [now apply firstn_NoDup|]. intros f Hf. apply Hin'.
    now apply firstn_In_list in Hf.
  - now split.
Qed.

Lemma run_request_buffer_in_flight (now : Q) (offset : Z) (w : World) :
  unsequenced (toolbar w) = false -> buffer_in_flight w ->
  buffer_in_flight (snd (run_request now offset w)).
Proof.
  intros Hu [Hnd Hin]. rewrite run_request_sequenced by assumption.
  destruct (Frame___add__ _ _) as [frame | e]; [|now split].
  exact (appendleft_in_flight (buffer (toolbar w)) (source w) (value frame) false Hnd Hin).
Qed.

Lemma run_buffer_in_flight (ctl : Controls) (cpus : Z) (now : Q) (w : World) :
  0 <= concurrent_requests_count ctl cpus ->
  unsequenced_checkbox ctl = false ->
  buffer_in_flight (snd (run ctl cpus now w)).
Proof.
  intros Hc Hmode. rewrite (run_spec ctl cpus now w Hc).
  set (w1 := mk_World (run_started ctl cpus now (toolbar w)) (source w)).
  set (xs := map Z.of_nat (seq 0 (initial_requests ctl cpus))).
  pose (P := fun (_ : nat) (w : World) =>
               unsequenced (toolbar w) = false /\ buffer_in_flight w).
  assert (P 0%nat (snd (for_each xs (run_request now) w1))) as [_ H].
  { apply for_each_invariant.
    - trivial.
    - intros n x w' [Hu Hb]. unfold P. split; [|now apply run_request_buffer_in_flight].
      rewrite run_request_sequenced by assumption.
      now destruct (Frame___add__ _ _).
    - unfold P, buffer_in_flight, w1. cbn. rewrite Hmode. cbn.
      split; [reflexivity|]. split; [constructor | contradiction]. }
  destruct (for_each xs (run_request now) w1) as [[[]|e] w']; cbn in *; exact H.
Qed.

Lemma sequenced_buffer_in_flight (now : Q) (w : World) :
  buffer_in_flight w -> buffer_in_flight (snd (_request_next_frame_sequenced now w)).
Proof.
  intros [Hnd Hin]. destruct (frames_left_exhausted (toolbar w)) eqn:E.
  - rewrite sequenced_exhausted by assumption.
    destruct (abort_cases now w) as (t' & -> & Hsame & _).
    destruct Hsame as (_ & Hbuf & _). unfold buffer_in_flight. cbn [snd toolbar source].
    rewrite Hbuf. now split.
  - rewrite sequenced_request by assumption.
    pose proof (pop_spec (buffer (toolbar w))) as Hpop.
    destruct (pop (buffer (toolbar w))) as [[f buf] | e]; [|now split].
    destruct Hpop as [Hitems _]. rewrite Hitems in Hnd, Hin. cbv zeta.
    set (h1 := if is_pending (source w) f then Resolved f :: source w else source w).
    assert (NoDup (items buf)) as Hnd1 by now apply NoDup_app_remove_r in Hnd.
    assert (forall g, In g (items buf) -> In g (pending h1)) as Hin1.
    { intros g Hg.
      assert (g <> f) as Hne.
      { intros ->. apply NoDup_remove_2 in Hnd. rewrite app_nil_r in Hnd. contradiction. }
      assert (In g (pending (source w))) as Hp by (apply Hin, in_or_app; now left).
      unfold h1. destruct (is_pending (source w) f); [|exact Hp].
      cbn [pending]. now apply in_in_remove. }
    destruct (next_frame_of _) as [next | e]; [|now split].
    destruct (__le__ next _); [|now split].
    unfold buffer_in_flight. cbn [snd toolbar source decremented set_frames_left
                                   set_buffer buffer].
    exact (appendleft_in_flight buf h1 (value next) false Hnd1 Hin1).
Qed.

Lemma ticks_buffer_in_flight (times : list Q) (w : World) :
  buffer_in_flight w -> buffer_in_flight (deliver_all (map Tick times) w).
Proof.
  revert w. induction times as [|t times IH]; intros w Hw; [exact Hw|].
  change (deliver_all (map Tick (t :: times)) w)
    with (deliver_all (map Tick times) (deliver (Tick t) w)).
  apply IH. unfold deliver. destruct (enabled (Tick t) w); [|exact Hw].
  now apply sequenced_buffer_in_flight.
Qed.

(** X22: a sequenced run that comes to its end stops with requests in
    flight.  When the tick that finds [frames_left] at 0 has stopped the
    toolbar, the buffer still holds [min(total, concurrency)] futures, the
    requests for the last frames of the range; none of them has been waited
    for, and they are all the requests in flight. *)
Theorem sequenced_run_stops_before_last_frames (ctl : Controls) (cpus : nat)
        (now now' : Q) (times : list Q) (w0 : World) :
  valid_controls ctl -> unsequenced_checkbox ctl = false ->
  1 <= concurrent_requests_count ctl (Z.of_nat cpus) ->
  run_abort_button (toolbar w0) = false ->
  pending (source w0) = [] ->
  Z.of_nat (List.length times) = value (total_frames_control ctl) ->
  let w' := deliver (Tick now')
              (deliver_all (map Tick times) (snd (handle (Press ctl cpus now) w0))) in
  let a := initial_requests ctl (Z.of_nat cpus) in
  let newest := (List.length (requests (source w0)) + List.length times)%nat in
  items (buffer (toolbar w')) = rev (seq newest a) /\
  (forall f : nat, In f (pending (source w')) <-> In f (items (buffer (toolbar w')))) /\
  in_flight (source w') = a /\
  (forall i : nat,
      (i < a)%nat ->
      nth_error (issued (source w')) (newest + i)
      = Some (value (end_frame_control ctl) + 1 - Z.of_nat a + Z.of_nat i)).
Proof.
  intros Hvalid Hmode Hone Hbtn Hquiet Hlen. cbv zeta.
  destruct (sequenced_run_ticked ctl cpus now times w0 Hvalid Hmode Hone Hbtn Hquiet Hlen)
    as [Hend Hpend].
  pose proof Hvalid as (Hfirst & Hlast & Htotal).
  assert (buffer_in_flight
            (deliver_all (map Tick times) (snd (handle (Press ctl cpus now) w0)))) as Hbuf.
  { apply ticks_buffer_in_flight. rewrite handle_press, Hbtn.
    apply run_buffer_in_flight; [apply concurrent_requests_count_nonneg | exact Hmode]. }
  set (w := deliver_all (map Tick times) (snd (handle (Press ctl cpus now) w0))) in *.
  set (a := initial_requests ctl (Z.of_nat cpus)) in *.
  set (off := List.length (requests (source w0))) in *.
  destruct Hend as (_ & _ & _ & Hleft & Hitems & Hissued & Hafter & _).
  destruct Hpend as (Hrun & Hbutton & Htimer & Htime).
  assert (frames_left_exhausted (toolbar w) = true) as E.
  { apply le_zero_value. cbn. cbn in Hleft. lia. }
  assert (buffer (toolbar (deliver (Tick now') w)) = buffer (toolbar w) /\
          source (deliver (Tick now') w) = source w) as [-> ->].
  { unfold deliver. cbn [enabled]. rewrite Htimer. cbn [handle].
    rewrite sequenced_exhausted by assumption.
    destruct (abort_cases now' w) as (t' & -> & Hsame & _).
    destruct Hsame as (_ & Hb & _). now split. }
  rewrite Hitems. cbn [items].
  assert (List.length (requests (source w)) = (off + a + List.length times)%nat) as Hreq.
  { rewrite <- issued_length, Hissued, !length_app, !frame_run_length, issued_length.
    fold off. lia. }
  assert (a <= List.length times)%nat as Hamin by (unfold a, initial_requests; lia).
  assert (forall f, In f (pending (source w)) <-> In f (rev (seq (off + List.length times) a)))
    as Hsame.
  { intros f. rewrite <- in_rev, in_seq. split.
    - intros Hf. pose proof (Hafter f Hf). apply pending_issued in Hf. lia.
    - intros Hf. destruct Hbuf as [_ Hin]. apply Hin. rewrite Hitems. cbn [items].
      rewrite <- in_rev. apply in_seq. lia. }
  split_ands.
  - reflexivity.
  - exact Hsame.
  - unfold in_flight.
    transitivity (List.length (rev (seq (off + List.length times) a)));
      [|now rewrite length_rev, length_seq].
    apply Nat.le_antisymm; apply NoDup_incl_length.
    + apply pending_NoDup.
    + intros f Hf. now apply Hsame.
    + apply NoDup_rev, seq_NoDup.
    + intros f Hf. now apply Hsame.
  - intros i Hi. rewrite Hissued.
    rewrite nth_error_app2 by (rewrite issued_length; fold off; lia).
    rewrite issued_length. fold off.
    rewrite nth_error_app2 by (rewrite frame_run_length; lia).
    rewrite frame_run_length, frame_run_nth by lia. f_equal. lia.
Qed.

Lemma sequenced_run_stops_before_last_frames_witness :
  let ctl := sample_controls 0 9 false in
  let w' := deliver (Tick 6)
              (deliver_all (map Tick [2; 2; 3; 3; 3; 4; 4; 4; 5; 5]%Q)
                 (snd (handle (Press ctl 3 1) world_init))) in
  items (buffer (toolbar w')) = rev (seq 10 3) /\
  in_flight (source w') = 3%nat /\
  nth_error (issued (source w')) 12 = Some 9.
Proof.
  intros ctl w'.
  destruct (sequenced_run_stops_before_last_frames ctl 3 1 6
              [2; 2; 3; 3; 3; 4; 4; 4; 5; 5]%Q world_init)
    as (Hitems & _ & Hflight & Hlast).
  - unfold valid_controls, ctl, sample_controls. cbn. lia.
  - reflexivity.
  - cbn. lia.
  - reflexivity.
  - reflexivity.
  - reflexivity.
  - split; [exact Hitems|]. split; [exact Hflight|].
    apply (Hlast 2%nat). vm_compute. lia.
Defined.

(** ** The checkboxes *)

(** X24: [on_prefetch_changed] keeps the unsequenced checkbox in step with
    the prefetch checkbox: after any clicks on the two checkboxes of a new
    toolbar, the unsequenced checkbox is enabled exactly when prefetch is
    checked, and it is checked only if prefetch is.  [set_ui_editable] does
    not look at the prefetch checkbox: after a run has disabled and enabled
    the controls again with prefetch unchecked, the unsequenced checkbox is
    enabled and a click checks it. *)
Theorem unsequenced_checkbox_follows_prefetch (cs : list checkbox_click) (b : Checkboxes) :
  (let b1 := clicks cs setup_ui in
   unsequenced_enabled b1 = prefetch_checked b1 /\
   (unsequenced_checked b1 = true -> prefetch_checked b1 = true)) /\
  (prefetch_checked b = false -> unsequenced_checked b = false ->
   let b2 := click ClickUnsequenced
               (Checkboxes.set_ui_editable true (Checkboxes.set_ui_editable false b)) in
   prefetch_checked b2 = false /\ unsequenced_checked b2 = true).
Proof.
  split.
  - cbv zeta.
    assert (forall b0 : Checkboxes,
               prefetch_enabled b0 = true ->
               unsequenced_enabled b0 = prefetch_checked b0 ->
               (unsequenced_checked b0 = true -> prefetch_checked b0 = true) ->
               unsequenced_enabled (clicks cs b0) = prefetch_checked (clicks cs b0) /\
               (unsequenced_checked (clicks cs b0) = true ->
                prefetch_checked (clicks cs b0) = true)) as Hinv.
    { induction cs as [|c cs IH]; intros b0 He Hu Hc; [now split|].
      cbn [clicks fold_left]. apply IH.
      - destruct c, b0 as [[] [] [] []]; cbn in *; congruence.
      - destruct c, b0 as [[] [] [] []]; cbn in *; congruence.
      - destruct c, b0 as [[] [] [] []]; cbn in *; try congruence; intuition congruence. }
    now apply Hinv.
  - intros Hp Hu. destruct b as [p pe u ue]. cbn in *. subst. now split.
Qed.

Lemma unsequenced_checkbox_follows_prefetch_witness :
  let b := clicks [ClickPrefetch] setup_ui in
  let b2 := click ClickUnsequenced
              (Checkboxes.set_ui_editable true (Checkboxes.set_ui_editable false b)) in
  unsequenced_enabled b = false /\
  prefetch_checked b2 = false /\ unsequenced_checked b2 = true.
Proof.
  intros b b2. split; [reflexivity|].
  apply (unsequenced_checkbox_follows_prefetch [] b); reflexivity.
Defined.

(** ** [FrameEdit] and [TimeEdit] *)

